(** * Copy Google Maps Link: a model of the QGIS plugin and its properties

    The plugin (copy_google_maps_link_plugin.py) is an event handler wired
    into the host's canvas menu, message bar and clipboard.  The model
    below follows the Python text: the module global
    [clicked_point_canvas_crs], the two attributes of the plugin instance
    the handlers read, and the Qt objects whose condition decides a branch
    are kept in a [World]; every call into the host is recorded as an
    [Event]; exceptions are values of a small monad of our own in which a
    raised exception keeps the state reached so far, as Python does. *)

From Stdlib Require Import Bool List String Ascii ZArith Lia.
From Stdlib Require Import Floats.SpecFloat.
Import ListNotations.

Local Open Scope string_scope.
Local Open Scope list_scope.

(** ** Python floats

    A Python float is an IEEE 754 binary64 datum.  The comparisons the
    plugin performs are the IEEE ones: [==] is false on NaN, [<=] is false
    as soon as one side is NaN. *)

Definition float : Type := spec_float.

Definition prec : Z := 53.
Definition emax : Z := 1024.

(** [float(n)] for an integer literal, rounded to nearest even. *)
Definition float_of_int (n : Z) : float := binary_normalize prec emax n 0 false.

(** [float('inf')] *)
Definition float_inf : float := S754_infinity false.

Definition float_eq (a b : float) : bool := SFeqb a b.
Definition float_le (a b : float) : bool := SFleb a b.
Definition float_abs (a : float) : float := SFabs a.

(** Comparison of an integer literal with a float, [n <= f] and [f <= n].
    Python compares the two exactly; the literals of the plugin (90 and
    180 and their opposites) are binary64 numbers, so the comparison is
    the float one. *)
Definition int_le_float (n : Z) (f : float) : bool := float_le (float_of_int n) f.
Definition float_le_int (f : float) (n : Z) : bool := float_le f (float_of_int n).

Definition is_nan (f : float) : bool :=
  match f with S754_nan => true | _ => false end.

Definition is_infinite (f : float) : bool :=
  match f with S754_infinity _ => true | _ => false end.

(** ** Host data *)

Module QgsPointXY.
Record t : Type := make { x : float; y : float }.
End QgsPointXY.

Record QgsCoordinateReferenceSystem : Type := mkCrs {
  isValid : bool;
  authid : string
}.

Record QgsMapMouseEvent : Type := mkMouseEvent {
  mapPoint : QgsPointXY.t
}.

Record QAction : Type := mkAction { text : string }.

Inductive QgsMapCanvas : Type := MapCanvas.

Inductive QgisLevel : Type := Qgis_Info | Qgis_Warning | Qgis_Critical | Qgis_Success.

Inductive ExceptionClass : Type :=
| TypeError | RuntimeError | AttributeError | QgsCsException | OtherException.

(** A raised exception: its class (all of them below [Exception]) and
    [str(e)]. *)
Record PyException : Type := mkExc {
  exc_class : ExceptionClass;
  exc_str : string
}.

Inductive MenuItem : Type :=
| Separator
| ActionItem (a : QAction).

Definition QMenu : Type := list MenuItem.

(** What the Python bindings compute on values; fixed for a session. *)
Record PyQgis : Type := mkPyQgis {
  (** [format(f)] of a float inside an f-string, that is [repr(f)] *)
  float_str : float -> string;
  (** [bool(p)] of a [QgsPointXY] *)
  point_bool : QgsPointXY.t -> bool;
  (** [p.toString()] *)
  point_toString : QgsPointXY.t -> string
}.

(** What the host answers during one invocation of the copy action. *)
Record Host : Type := mkHost {
  (** [canvas.mapSettings().destinationCrs()] *)
  destinationCrs : QgsCoordinateReferenceSystem;
  (** [QgsCoordinateReferenceSystem(definition)] *)
  crs_from_string : string -> QgsCoordinateReferenceSystem;
  (** [QgsCoordinateTransform(src, dst, project).transform(p)]: the
      transformed point, or the exception the transform raises *)
  transform : QgsCoordinateReferenceSystem -> QgsCoordinateReferenceSystem ->
              QgsPointXY.t -> PyException + QgsPointXY.t
}.

(** ** Calls into the host, in the order they are made *)

Inductive Event : Type :=
| MessageBar (title msg : string) (level : QgisLevel) (duration : nat)
| MessageLog (msg tag : string) (level : QgisLevel)
| ClipboardSetText (s : string)
| CanvasDestinationCrs
| CrsConstructed (definition : string)
| TransformConstructed (src dst : QgsCoordinateReferenceSystem)
| TransformCalled (p : QgsPointXY.t)
| SignalConnect
| SignalDisconnect
| ActionDeleteLater
| MenuAddSeparator
| MenuAddAction (a : QAction).

(** ** State *)

Record World : Type := mkWorld {
  (** the module global *)
  clicked_point_canvas_crs : option QgsPointXY.t;
  (** [self.canvas] *)
  canvas : option QgsMapCanvas;
  (** [self.context_menu_action] *)
  context_menu_action : option QAction;
  (** the C++ canvas behind [self.canvas] is gone *)
  canvas_deleted : bool;
  (** connections of [prepare_canvas_context_menu] to
      [contextMenuAboutToShow] *)
  connections : nat;
  (** [sip.isdeleted] of the action created by [__init__] *)
  action_deleted : bool;
  (** [deleteLater()] was called on that action *)
  action_delete_scheduled : bool;
  (** text held by the system clipboard *)
  clipboard : string
}.

Definition set_clicked_point (v : option QgsPointXY.t) (w : World) : World :=
  mkWorld v (canvas w) (context_menu_action w) (canvas_deleted w)
          (connections w) (action_deleted w) (action_delete_scheduled w)
          (clipboard w).

Definition set_context_menu_action (v : option QAction) (w : World) : World :=
  mkWorld (clicked_point_canvas_crs w) (canvas w) v (canvas_deleted w)
          (connections w) (action_deleted w) (action_delete_scheduled w)
          (clipboard w).

Definition set_connections (n : nat) (w : World) : World :=
  mkWorld (clicked_point_canvas_crs w) (canvas w) (context_menu_action w)
          (canvas_deleted w) n (action_deleted w) (action_delete_scheduled w)
          (clipboard w).

Definition set_action_delete_scheduled (b : bool) (w : World) : World :=
  mkWorld (clicked_point_canvas_crs w) (canvas w) (context_menu_action w)
          (canvas_deleted w) (connections w) (action_deleted w) b
          (clipboard w).

Definition set_clipboard (s : string) (w : World) : World :=
  mkWorld (clicked_point_canvas_crs w) (canvas w) (context_menu_action w)
          (canvas_deleted w) (connections w) (action_deleted w)
          (action_delete_scheduled w) s.

(** ** The monad: state, emitted events, exceptions *)

Inductive completion (A : Type) : Type :=
| Returns (a : A)
| Raises (e : PyException).
Arguments Returns {A} a.
Arguments Raises {A} e.

Record Run (A : Type) : Type := mkRun {
  completed : completion A;
  final : World;
  emitted : list Event
}.
Arguments mkRun {A} _ _ _.
Arguments completed {A} _.
Arguments final {A} _.
Arguments emitted {A} _.

Definition M (A : Type) : Type := World -> Run A.

Definition ret {A : Type} (a : A) : M A :=
  fun w => mkRun (Returns a) w [].

Definition bind {A B : Type} (m : M A) (k : A -> M B) : M B :=
  fun w =>
    match m w with
    | mkRun (Returns a) w1 ev1 =>
        match k a w1 with
        | mkRun c w2 ev2 => mkRun c w2 (ev1 ++ ev2)
        end
    | mkRun (Raises e) w1 ev1 => mkRun (Raises e) w1 ev1
    end.

Definition raise {A : Type} (e : PyException) : M A :=
  fun w => mkRun (Raises e) w [].

Definition emit (ev : Event) : M unit :=
  fun w => mkRun (Returns tt) w [ev].

Definition read {A : Type} (f : World -> A) : M A :=
  fun w => mkRun (Returns (f w)) w [].

Definition modify (f : World -> World) : M unit :=
  fun w => mkRun (Returns tt) (f w) [].

(** [try: body  except Exception as e: handler e] *)
Definition try_except {A : Type} (body : M A) (handler : PyException -> M A) : M A :=
  fun w =>
    match body w with
    | mkRun (Returns a) w1 ev1 => mkRun (Returns a) w1 ev1
    | mkRun (Raises e) w1 ev1 =>
        match handler e w1 with
        | mkRun c w2 ev2 => mkRun c w2 (ev1 ++ ev2)
        end
    end.

(** [try: body  finally: cleanup]; the cleanup runs on every exit, and an
    exception of the body is raised again after it unless the cleanup
    raises one of its own. *)
Definition try_finally {A : Type} (body : M A) (cleanup : M unit) : M A :=
  fun w =>
    match body w with
    | mkRun c w1 ev1 =>
        match cleanup w1 with
        | mkRun (Returns _) w2 ev2 => mkRun c w2 (ev1 ++ ev2)
        | mkRun (Raises e) w2 ev2 => mkRun (Raises e) w2 (ev1 ++ ev2)
        end
    end.

Notation "x <- c1 ;; c2" := (bind c1 (fun x => c2))
  (at level 61, c1 at next level, right associativity).
Notation "c1 ;; c2" := (bind c1 (fun _ => c2))
  (at level 61, right associativity).

(** ** Host operations *)

Definition plugin_name : string := "Copy Google Maps Link".

(** [iface.messageBar().pushMessage(title, msg, level=, duration=)] *)
Definition pushMessage (title msg : string) (level : QgisLevel) (duration : nat) : M unit :=
  emit (MessageBar title msg level duration).

(** [QgsMessageLog.logMessage(msg, tag, level)] *)
Definition logMessage (msg tag : string) (level : QgisLevel) : M unit :=
  emit (MessageLog msg tag level).

(** [QApplication.clipboard().setText(s)] *)
Definition clipboard_setText (s : string) : M unit :=
  modify (set_clipboard s) ;; emit (ClipboardSetText s).

(** Reaching the C++ canvas through [self.canvas]: the attribute may be
    [None], and a wrapper whose object is gone raises [RuntimeError]. *)
Definition with_canvas {A : Type} (attr : string) (k : M A) : M A :=
  c <- read canvas ;;
  match c with
  | None =>
      raise (mkExc AttributeError
               ("'NoneType' object has no attribute '" ++ attr ++ "'"))
  | Some _ =>
      gone <- read canvas_deleted ;;
      if gone
      then raise (mkExc RuntimeError
                    "wrapped C/C++ object of type QgsMapCanvas has been deleted")
      else k
  end.

(** [self.canvas.mapSettings().destinationCrs()] *)
Definition canvas_destinationCrs (h : Host) : M QgsCoordinateReferenceSystem :=
  with_canvas "mapSettings" (emit CanvasDestinationCrs ;; ret (destinationCrs h)).

(** [QgsCoordinateReferenceSystem(definition)] *)
Definition new_crs (h : Host) (definition : string) : M QgsCoordinateReferenceSystem :=
  emit (CrsConstructed definition) ;; ret (crs_from_string h definition).

(** [QgsCoordinateTransform(src, dst, QgsProject.instance())] *)
Definition new_transform (src dst : QgsCoordinateReferenceSystem)
  : M (QgsCoordinateReferenceSystem * QgsCoordinateReferenceSystem) :=
  emit (TransformConstructed src dst) ;; ret (src, dst).

(** [t.transform(p)], which raises when the host cannot transform *)
Definition transform_point (h : Host)
    (t : QgsCoordinateReferenceSystem * QgsCoordinateReferenceSystem)
    (p : QgsPointXY.t) : M QgsPointXY.t :=
  emit (TransformCalled p) ;;
  match transform h (fst t) (snd t) p with
  | inl e => raise e
  | inr q => ret q
  end.

(** [self.canvas.contextMenuAboutToShow.connect(self.prepare_canvas_context_menu)] *)
Definition signal_connect : M unit :=
  with_canvas "contextMenuAboutToShow"
    (modify (fun w => set_connections (S (connections w)) w) ;; emit SignalConnect).

(** [self.canvas.contextMenuAboutToShow.disconnect(self.prepare_canvas_context_menu)]:
    PyQt raises [TypeError] when the slot is not connected. *)
Definition signal_disconnect : M unit :=
  with_canvas "contextMenuAboutToShow"
    (n <- read connections ;;
     match n with
     | O => raise (mkExc TypeError
                     "'method' object is not connected")
     | S n' => modify (set_connections n') ;; emit SignalDisconnect
     end).

(** [sip.isdeleted(self.context_menu_action)] *)
Definition sip_isdeleted : M bool := read action_deleted.

(** [self.context_menu_action.deleteLater()]: [RuntimeError] on a wrapper
    whose C++ object is gone. *)
Definition action_deleteLater : M unit :=
  gone <- read action_deleted ;;
  if gone
  then raise (mkExc RuntimeError
                "wrapped C/C++ object of type QAction has been deleted")
  else modify (set_action_delete_scheduled true) ;; emit ActionDeleteLater.

(** [menu.addSeparator()] *)
Definition menu_addSeparator : M unit := emit MenuAddSeparator.

(** [menu.addAction(a)]: Qt ignores a null action; a wrapper whose C++
    object is gone raises [RuntimeError]. *)
Definition menu_addAction (a : option QAction) : M unit :=
  match a with
  | None => ret tt
  | Some act =>
      gone <- read action_deleted ;;
      if gone
      then raise (mkExc RuntimeError
                    "wrapped C/C++ object of type QAction has been deleted")
      else emit (MenuAddAction act)
  end.

(** The menu the host supplied, after the calls recorded in [evs]. *)
Fixpoint menu_after (menu : QMenu) (evs : list Event) : QMenu :=
  match evs with
  | [] => menu
  | MenuAddSeparator :: evs' => menu_after (menu ++ [Separator]) evs'
  | MenuAddAction a :: evs' => menu_after (menu ++ [ActionItem a]) evs'
  | _ :: evs' => menu_after menu evs'
  end.

(** ** The plugin *)

Section Plugin.

Variable api : PyQgis.

(** The value of the global when it is truthy ([if not v] fails). *)
Definition truthy_point (v : option QgsPointXY.t) : option QgsPointXY.t :=
  match v with
  | Some p => if point_bool api p then Some p else None
  | None => None
  end.

(** [__init__]: keeps the canvas, creates the action once. *)
Definition CopyGoogleMapsLinkPlugin_init (iface_canvas : option QgsMapCanvas) : M unit :=
  modify (fun w =>
    mkWorld (clicked_point_canvas_crs w) iface_canvas
            (Some (mkAction "Copy Google Maps Link Here"))
            (canvas_deleted w) (connections w) false false (clipboard w)) ;;
  logMessage (plugin_name ++ ": __init__ completed. Action created.")
             plugin_name Qgis_Info.

Definition initGui : M unit :=
  signal_connect ;;
  logMessage (plugin_name ++ ": initGui completed and signal connected.")
             plugin_name Qgis_Info.

(** [if event and event.mapPoint()] *)
Definition valid_map_point (event : option QgsMapMouseEvent) : option QgsPointXY.t :=
  match event with
  | Some ev => if point_bool api (mapPoint ev) then Some (mapPoint ev) else None
  | None => None
  end.

Definition prepare_canvas_context_menu (event : option QgsMapMouseEvent) : M unit :=
  match valid_map_point event with
  | Some p =>
      modify (set_clicked_point (Some p)) ;;
      menu_addSeparator ;;
      a <- read context_menu_action ;;
      menu_addAction a
  | None =>
      logMessage
        (plugin_name ++
         ": prepare_canvas_context_menu called without a valid event or mapPoint.")
        plugin_name Qgis_Warning
  end.

(** The test of lines 115-117 on the transformed point. *)
Definition invalid_wgs84 (q : QgsPointXY.t) : bool :=
  let x := QgsPointXY.x q in
  let y := QgsPointXY.y q in
  negb (float_eq x x && float_eq y y)
  || float_eq (float_abs x) float_inf
  || float_eq (float_abs y) float_inf
  || negb ((int_le_float (-90) y && float_le_int y 90)
           && (int_le_float (-180) x && float_le_int x 180)).

Definition google_maps_link (q : QgsPointXY.t) : string :=
  "https://www.google.com/maps?q=" ++ float_str api (QgsPointXY.y q)
    ++ "," ++ float_str api (QgsPointXY.x q).

Definition copy_google_maps_link_from_context (h : Host) : M unit :=
  clicked <- read clicked_point_canvas_crs ;;
  match truthy_point clicked with
  | None =>
      pushMessage "Error"
        "Could not get clicked point. Please right-click on the map again."
        Qgis_Critical 4 ;;
      logMessage
        "copy_google_maps_link_from_context: clicked_point_canvas_crs is None."
        plugin_name Qgis_Warning
  | Some p =>
      try_finally
        (try_except
           (canvas_crs <- canvas_destinationCrs h ;;
            if negb (isValid canvas_crs) then
              pushMessage "Error"
                "Invalid Canvas CRS. Cannot perform transformation."
                Qgis_Critical 5 ;;
              logMessage ("Invalid Canvas CRS: " ++ authid canvas_crs)
                plugin_name Qgis_Critical ;;
              modify (set_clicked_point None)
            else
              target_crs <- new_crs h "EPSG:4326" ;;
              if negb (isValid target_crs) then
                pushMessage "Error"
                  "Could not define target CRS (EPSG:4326)."
                  Qgis_Critical 5 ;;
                logMessage "Failed to initialize EPSG:4326."
                  plugin_name Qgis_Critical ;;
                modify (set_clicked_point None)
              else
                t <- new_transform canvas_crs target_crs ;;
                point_wgs84 <- transform_point h t p ;;
                if invalid_wgs84 point_wgs84 then
                  pushMessage "Error"
                    "Coordinate transformation failed or resulted in invalid WGS84 coordinates. Check project CRS."
                    Qgis_Critical 5 ;;
                  logMessage
                    ("Coordinate transformation resulted in invalid WGS84. Original: "
                       ++ point_toString api p ++ ", Canvas CRS: "
                       ++ authid canvas_crs ++ ", Transformed: "
                       ++ point_toString api point_wgs84)
                    plugin_name Qgis_Critical ;;
                  modify (set_clicked_point None)
                else
                  let link := google_maps_link point_wgs84 in
                  clipboard_setText link ;;
                  pushMessage "Success" ("Google Maps link copied: " ++ link)
                    Qgis_Success 5)
           (fun e =>
              let error_message :=
                ("Error copying Google Maps link: " ++ exc_str e)%string in
              pushMessage "Error" error_message Qgis_Critical 5 ;;
              logMessage error_message plugin_name Qgis_Critical))
        (modify (set_clicked_point None))
  end.

Definition unload : M unit :=
  try_except
    (c <- read canvas ;;
     match c with
     | Some _ =>
         signal_disconnect ;;
         logMessage (plugin_name ++ ": Disconnected from contextMenuAboutToShow.")
           plugin_name Qgis_Info
     | None => ret tt
     end)
    (fun e =>
       match exc_class e with
       | TypeError =>
           logMessage
             (plugin_name ++
              ": Signal (contextMenuAboutToShow) was already disconnected or not connected.")
             plugin_name Qgis_Warning
       | _ =>
           logMessage ("Error disconnecting signal in unload: " ++ exc_str e)
             plugin_name Qgis_Warning
       end) ;;
  a <- read context_menu_action ;;
  match a with
  | Some _ =>
      gone <- sip_isdeleted ;;
      (if negb gone then
         action_deleteLater ;;
         logMessage (plugin_name ++ ": Context menu action scheduled for deletion.")
           plugin_name Qgis_Info
       else
         logMessage
           (plugin_name ++ ": Context menu action was already deleted (likely by parent).")
           plugin_name Qgis_Info) ;;
      modify (set_context_menu_action None)
  | None => ret tt
  end ;;
  logMessage (plugin_name ++ ": Unloaded successfully.") plugin_name Qgis_Info.

End Plugin.

(** ** Host-driven life of the plugin

    The host imports the module, builds the plugin, calls [initGui] once,
    then delivers right-clicks (to a connected handler only), menu
    selections and, at the end, [unload].  Besides, Qt may destroy the
    canvas (its child action and the connections go with it), run a
    deferred deletion, and any application may overwrite the clipboard. *)

Definition imported_module (clip : string) : World :=
  mkWorld None None None false 0 false false clip.

Definition canvas_destroyed (w : World) : World :=
  mkWorld (clicked_point_canvas_crs w) (canvas w) (context_menu_action w)
          true 0 true (action_delete_scheduled w) (clipboard w).

Definition deferred_delete (w : World) : World :=
  mkWorld (clicked_point_canvas_crs w) (canvas w) (context_menu_action w)
          (canvas_deleted w) (connections w) true (action_delete_scheduled w)
          (clipboard w).

Section Lifecycle.

Variable api : PyQgis.

Inductive lifecycle : World -> Prop :=
| lc_loaded (clip : string) (iface_canvas : option QgsMapCanvas) :
    completed ((CopyGoogleMapsLinkPlugin_init iface_canvas ;; initGui)
                 (imported_module clip)) = Returns tt ->
    lifecycle (final ((CopyGoogleMapsLinkPlugin_init iface_canvas ;; initGui)
                        (imported_module clip)))
| lc_context_menu (w : World) (event : option QgsMapMouseEvent) :
    lifecycle w -> 0 < connections w ->
    lifecycle (final (prepare_canvas_context_menu api event w))
| lc_triggered (w : World) (h : Host) :
    lifecycle w ->
    lifecycle (final (copy_google_maps_link_from_context api h w))
| lc_unload (w : World) :
    lifecycle w -> lifecycle (final (unload w))
| lc_canvas_destroyed (w : World) :
    lifecycle w -> lifecycle (canvas_destroyed w)
| lc_deferred_delete (w : World) :
    lifecycle w -> action_delete_scheduled w = true ->
    lifecycle (deferred_delete w)
| lc_clipboard (w : World) (s : string) :
    lifecycle w -> lifecycle (set_clipboard s w).

(** What every state of that life satisfies. *)
Record consistent (w : World) : Prop := mkConsistent {
  cons_at_most_one : connections w <= 1;
  cons_connected :
    0 < connections w ->
    context_menu_action w = Some (mkAction "Copy Google Maps Link Here")
    /\ action_deleted w = false;
  cons_canvas :
    0 < connections w -> canvas w = Some MapCanvas /\ canvas_deleted w = false;
  cons_scheduled :
    action_delete_scheduled w = true -> connections w = 0;
  cons_truthy :
    forall p, clicked_point_canvas_crs w = Some p -> point_bool api p = true
}.

End Lifecycle.

(** ** Outcomes of the copy action

    The action returns nothing; which of its paths ran is what it tells the
    user on the message bar. *)

Inductive Outcome : Type :=
| NoPointCaptured
| InvalidSourceCRS
| InvalidTargetCRS
| TransformError
| InvalidTransformResult
| LinkCopied.

(** [s] begins with [pre]. *)
Fixpoint starts_with (pre s : string) : bool :=
  match pre with
  | EmptyString => true
  | String c pre' =>
      match s with
      | EmptyString => false
      | String d s' => Ascii.eqb c d && starts_with pre' s'
      end
  end.

Definition outcome_of_event (ev : Event) : option Outcome :=
  match ev with
  | MessageBar title msg _ _ =>
      if (title =? "Success")%string then
        if starts_with "Google Maps link copied: " msg then Some LinkCopied else None
      else if (title =? "Error")%string then
        if (msg =? "Could not get clicked point. Please right-click on the map again.")%string
        then Some NoPointCaptured
        else if (msg =? "Invalid Canvas CRS. Cannot perform transformation.")%string
        then Some InvalidSourceCRS
        else if (msg =? "Could not define target CRS (EPSG:4326).")%string
        then Some InvalidTargetCRS
        else if (msg =? "Coordinate transformation failed or resulted in invalid WGS84 coordinates. Check project CRS.")%string
        then Some InvalidTransformResult
        else if starts_with "Error copying Google Maps link: " msg
        then Some TransformError
        else None
      else None
  | _ => None
  end.

Fixpoint outcomes (evs : list Event) : list Outcome :=
  match evs with
  | [] => []
  | ev :: evs' =>
      match outcome_of_event ev with
      | Some o => o :: outcomes evs'
      | None => outcomes evs'
      end
  end.

(** The texts written to the clipboard, in order. *)
Fixpoint clipboard_writes (evs : list Event) : list string :=
  match evs with
  | [] => []
  | ClipboardSetText s :: evs' => s :: clipboard_writes evs'
  | _ :: evs' => clipboard_writes evs'
  end.

(** The messages shown to the user, in order. *)
Fixpoint ui_messages (evs : list Event) : list Event :=
  match evs with
  | [] => []
  | MessageBar t m l d :: evs' => MessageBar t m l d :: ui_messages evs'
  | _ :: evs' => ui_messages evs'
  end.

(** The entries of the log, in order. *)
Fixpoint log_entries (evs : list Event) : list Event :=
  match evs with
  | [] => []
  | MessageLog m t l :: evs' => MessageLog m t l :: log_entries evs'
  | _ :: evs' => log_entries evs'
  end.

(** The queries to the canvas and to the reference-system service. *)
Definition is_crs_call (ev : Event) : bool :=
  match ev with
  | CanvasDestinationCrs | CrsConstructed _
  | TransformConstructed _ _ | TransformCalled _ => true
  | _ => false
  end.

Definition crs_calls (evs : list Event) : list Event := filter is_crs_call evs.

(** Latitude and longitude ranges, with the comparisons of the source. *)
Definition lat_in_range (y : float) : bool :=
  int_le_float (-90) y && float_le_int y 90.

Definition lon_in_range (x : float) : bool :=
  int_le_float (-180) x && float_le_int x 180.

(** The exact value of a float that is a number is
    [float_num f / float_den f], with [float_den f] a positive power of
    two; [within lo hi f] says that this value lies in [lo, hi]. *)
Definition is_number (f : float) : bool :=
  match f with
  | S754_zero _ | S754_finite _ _ _ => true
  | _ => false
  end.

Definition float_num (f : float) : Z :=
  match f with
  | S754_finite s m e => cond_Zopp s (Zpos m) * 2 ^ Z.max e 0
  | _ => 0
  end.

Definition float_den (f : float) : Z :=
  match f with
  | S754_finite _ _ e => 2 ^ Z.max (- e) 0
  | _ => 1
  end.

Definition within (lo hi : Z) (f : float) : Prop :=
  is_number f = true
  /\ (lo * float_den f <= float_num f <= hi * float_den f)%Z.

(** [needle] occurs in [s]. *)
Definition contains (s needle : string) : Prop :=
  exists before after : string, s = (before ++ needle ++ after)%string.

(** [w'] differs from [w] at most in the captured point and in the
    clipboard. *)
Definition same_qt_objects (w w' : World) : Prop :=
  canvas w' = canvas w
  /\ context_menu_action w' = context_menu_action w
  /\ canvas_deleted w' = canvas_deleted w
  /\ connections w' = connections w
  /\ action_deleted w' = action_deleted w
  /\ action_delete_scheduled w' = action_delete_scheduled w.

(** ** A concrete session

    The example of the specification: a right-click in New York on a Web
    Mercator canvas. *)

Module Sample.

(** 40.7128 and -74.006 as binary64 numbers *)
Definition lat : float := S754_finite false 5729817215912798 (-47).
Definition lon : float := S754_finite true 5207709281612202 (-46).

(** (-8238310.24, 4969803.34) *)
Definition clicked : QgsPointXY.t :=
  QgsPointXY.make (S754_finite true 8845818263775478 (-30))
                  (S754_finite false 5336285703212892 (-30)).

Definition new_york : QgsPointXY.t := QgsPointXY.make lon lat.

(** longitude 181, latitude 0 *)
Definition off_the_globe : QgsPointXY.t :=
  QgsPointXY.make (float_of_int 181) (S754_zero false).

Definition api : PyQgis :=
  mkPyQgis
    (fun f => if float_eq f lat then "40.7128"
              else if float_eq f lon then "-74.006"
              else if float_eq f (float_of_int 181) then "181.0"
              else "0.0")
    (fun _ => true)
    (fun p => if float_eq (QgsPointXY.y p) lat then "<QgsPointXY: POINT(-74.006 40.7128)>"
              else "<QgsPointXY>").

Definition web_mercator : QgsCoordinateReferenceSystem := mkCrs true "EPSG:3857".
Definition wgs84 : QgsCoordinateReferenceSystem := mkCrs true "EPSG:4326".
Definition unknown_crs : QgsCoordinateReferenceSystem := mkCrs false "".

Definition host : Host :=
  mkHost web_mercator (fun _ => wgs84) (fun _ _ _ => inr new_york).

Definition host_without_crs : Host :=
  mkHost unknown_crs (fun _ => wgs84) (fun _ _ _ => inr new_york).

Definition host_without_wgs84 : Host :=
  mkHost web_mercator (fun _ => unknown_crs) (fun _ _ _ => inr new_york).

Definition transform_failure : PyException :=
  mkExc QgsCsException "forward transform failed".

Definition host_failing : Host :=
  mkHost web_mercator (fun _ => wgs84) (fun _ _ _ => inl transform_failure).

Definition host_off_the_globe : Host :=
  mkHost web_mercator (fun _ => wgs84) (fun _ _ _ => inr off_the_globe).

Definition loaded : World :=
  final ((CopyGoogleMapsLinkPlugin_init (Some MapCanvas) ;; initGui)
           (imported_module "")).

Definition right_click : option QgsMapMouseEvent := Some (mkMouseEvent clicked).

Definition right_clicked : World :=
  final (prepare_canvas_context_menu api right_click loaded).

End Sample.

(** ** What the host reads from the module, and how it builds the plugin *)

(** [name()] *)
Definition name : string := "Copy Google Maps Link".

(** [classFactory(iface_obj)]: the global [iface] is the interface from
    then on, and the plugin is built on its canvas. *)
Definition classFactory (iface_canvas : option QgsMapCanvas) : M unit :=
  CopyGoogleMapsLinkPlugin_init iface_canvas.

(** ** Sessions

    The calls the host makes into a built plugin, one after the other.  An
    exception that leaves a slot or a hook is reported by the host and the
    session goes on from the state reached. *)

Inductive HostCall : Type :=
| CallInitGui
| RightClick (event : option QgsMapMouseEvent)
| MenuEntryTriggered (h : Host)
| CallUnload.

Definition run_call (api : PyQgis) (c : HostCall) : M unit :=
  match c with
  | CallInitGui => initGui
  | RightClick event => prepare_canvas_context_menu api event
  | MenuEntryTriggered h => copy_google_maps_link_from_context api h
  | CallUnload => unload
  end.

(** The state after the calls and the events of all of them, in order. *)
Fixpoint run_calls (api : PyQgis) (cs : list HostCall) (w : World)
  : World * list Event :=
  match cs with
  | [] => (w, [])
  | c :: cs' =>
      match run_call api c w with
      | mkRun _ w1 ev1 =>
          match run_calls api cs' w1 with
          | (w2, ev2) => (w2, ev1 ++ ev2)
          end
      end
  end.

(** Right-clicks of a session that carry a valid map point. *)
Fixpoint valid_right_clicks (api : PyQgis) (cs : list HostCall) : nat :=
  match cs with
  | [] => 0
  | RightClick event :: cs' =>
      match valid_map_point api event with
      | Some _ => S (valid_right_clicks api cs')
      | None => valid_right_clicks api cs'
      end
  | _ :: cs' => valid_right_clicks api cs'
  end.

(** Selections of the menu entry in a session. *)
Fixpoint menu_selections (cs : list HostCall) : nat :=
  match cs with
  | [] => 0
  | MenuEntryTriggered _ :: cs' => S (menu_selections cs')
  | _ :: cs' => menu_selections cs'
  end.

(** Calls of [deleteLater] among the events. *)
Fixpoint delete_later_calls (evs : list Event) : nat :=
  match evs with
  | [] => 0
  | ActionDeleteLater :: evs' => S (delete_later_calls evs')
  | _ :: evs' => delete_later_calls evs'
  end.

(** Every entry of the log among the events carries the tag [tag]. *)
Definition logged_under (tag : string) (evs : list Event) : Prop :=
  forall msg t level, In (MessageLog msg t level) evs -> t = tag.

(** The events that change a Qt object: a connection, the action, a menu. *)
Definition touches_qt_objects (ev : Event) : bool :=
  match ev with
  | SignalConnect | SignalDisconnect | ActionDeleteLater
  | MenuAddSeparator | MenuAddAction _ => true
  | _ => false
  end.

(** 1 when a usable point is captured, 0 otherwise. *)
Definition captured (api : PyQgis) (w : World) : nat :=
  match truthy_point api (clicked_point_canvas_crs w) with
  | Some _ => 1
  | None => 0
  end.

(** 1 while the plugin holds the reference to its action, 0 afterwards. *)
Definition held_actions (w : World) : nat :=
  match context_menu_action w with
  | Some _ => 1
  | None => 0
  end.

(** * Properties *)

(** ** Floats *)

Lemma float_eq_self (a : float) : float_eq a a = negb (is_nan a).
Proof.
  destruct a as [s | s | | s m e]; try reflexivity; try (destruct s; reflexivity).
  unfold float_eq, SFeqb, SFcompare.
  rewrite Z.compare_refl, Pos.compare_cont_refl.
  destruct s; reflexivity.
Qed.

Lemma float_abs_eq_inf (a : float) :
  float_eq (float_abs a) float_inf = is_infinite a.
Proof. destruct a as [s | s | | s m e]; reflexivity. Qed.

Lemma invalid_wgs84_eq (q : QgsPointXY.t) :
  invalid_wgs84 q =
  (is_nan (QgsPointXY.x q) || is_nan (QgsPointXY.y q))
  || is_infinite (QgsPointXY.x q) || is_infinite (QgsPointXY.y q)
  || negb (lat_in_range (QgsPointXY.y q) && lon_in_range (QgsPointXY.x q)).
Proof.
  unfold invalid_wgs84, lat_in_range, lon_in_range.
  rewrite !float_eq_self, !float_abs_eq_inf, negb_andb, !negb_involutive.
  reflexivity.
Qed.

Lemma invalid_wgs84_true_iff (q : QgsPointXY.t) :
  invalid_wgs84 q = true <->
  (lat_in_range (QgsPointXY.y q) = false \/ lon_in_range (QgsPointXY.x q) = false
   \/ is_nan (QgsPointXY.x q) = true \/ is_nan (QgsPointXY.y q) = true
   \/ is_infinite (QgsPointXY.x q) = true \/ is_infinite (QgsPointXY.y q) = true).
Proof.
  rewrite invalid_wgs84_eq.
  destruct (is_nan (QgsPointXY.x q)), (is_nan (QgsPointXY.y q)),
    (is_infinite (QgsPointXY.x q)), (is_infinite (QgsPointXY.y q)),
    (lat_in_range (QgsPointXY.y q)), (lon_in_range (QgsPointXY.x q));
    cbn; intuition congruence.
Qed.

(** NaN and the infinities are outside both ranges: the range test alone
    already rejects them. *)
Lemma lat_in_range_finite (y : float) :
  lat_in_range y = true -> is_nan y = false /\ is_infinite y = false.
Proof.
  intros H. destruct y as [s | s | | s m e]; try (split; reflexivity).
  - destruct s; vm_compute in H; discriminate H.
  - vm_compute in H; discriminate H.
Qed.

Lemma lon_in_range_finite (x : float) :
  lon_in_range x = true -> is_nan x = false /\ is_infinite x = false.
Proof.
  intros H. destruct x as [s | s | | s m e]; try (split; reflexivity).
  - destruct s; vm_compute in H; discriminate H.
  - vm_compute in H; discriminate H.
Qed.

(** ** The range tests are exact

    On binary64 data the comparisons of the source with 90 and 180 decide
    the comparison of the exact values. *)

Section ExactComparison.

Local Open Scope Z_scope.

(** The number of binary digits of a mantissa bounds it. *)
Lemma digits2_pos_bounds (m : positive) :
  2 ^ (Zpos (digits2_pos m) - 1) <= Zpos m < 2 ^ Zpos (digits2_pos m).
Proof.
  induction m as [m IH | m IH |]; cbn [digits2_pos].
  - rewrite Pos2Z.inj_succ, Z.pow_succ_r by lia.
    replace (Z.succ (Zpos (digits2_pos m)) - 1) with (Z.succ (Zpos (digits2_pos m) - 1)) by lia.
    rewrite Z.pow_succ_r by lia. lia.
  - rewrite Pos2Z.inj_succ, Z.pow_succ_r by lia.
    replace (Z.succ (Zpos (digits2_pos m)) - 1) with (Z.succ (Zpos (digits2_pos m) - 1)) by lia.
    rewrite Z.pow_succ_r by lia. lia.
  - cbn. lia.
Qed.

(** A binary64 mantissa is below 2^53, and at least 2^52 unless the number
    is subnormal. *)
Lemma valid_mantissa (s : bool) (m : positive) (e : Z) :
  valid_binary prec emax (S754_finite s m e) = true ->
  -1074 <= e /\ Zpos m < 2 ^ 53 /\ (-1074 < e -> 2 ^ 52 <= Zpos m).
Proof.
  cbn [valid_binary]. unfold bounded, canonical_mantissa, fexp, SpecFloat.emin, prec, emax.
  intros H. apply andb_prop in H. destruct H as [H _].
  apply Z.eqb_eq in H.
  pose proof (digits2_pos_bounds m) as [Hlo Hhi].
  set (d := Zpos (digits2_pos m)) in *.
  assert (Hd : 0 < d) by (subst d; lia).
  assert (Hcase : (d = 53) \/ (e = -1074 /\ d <= 53)) by lia.
  destruct Hcase as [Hd53 | [He Hle]].
  - rewrite Hd53 in *. change (53 - 1) with 52 in Hlo. split; [lia|]. split; [exact Hhi|]. intros _. exact Hlo.
  - split; [lia|]. split; [|lia].
    apply Z.lt_le_trans with (2 ^ d); [exact Hhi|]. apply Z.pow_le_mono_r; lia.
Qed.

(** Comparison with a constant [n = M * 2^-k] of normal mantissa [M]: the
    IEEE comparison decides the comparison of the exact values. *)
Section AgainstConstant.

Variables (M : positive) (k n : Z).
Hypothesis Hk : 0 < k < 1074.
Hypothesis HM : Zpos M = n * 2 ^ k.
Hypothesis Hnorm : 2 ^ 52 <= Zpos M < 2 ^ 53.

Lemma n_small : 0 < n /\ 2 * n < 2 ^ 53.
Proof.
  assert (H2k : 2 ^ k = 2 * 2 ^ (k - 1)).
  { replace k with (Z.succ (k - 1)) at 1 by lia. apply Z.pow_succ_r. lia. }
  assert (Hp : 0 < 2 ^ (k - 1)) by (apply Z.pow_pos_nonneg; lia).
  split; nia.
Qed.

(** A normal mantissa at an exponent above the constant's exceeds it. *)
Lemma pow2_gap (e : Z) (m : positive) :
  - k < e -> 2 ^ 52 <= Zpos m ->
  Zpos m * 2 ^ Z.max e 0 <= n * 2 ^ Z.max (- e) 0 -> False.
Proof.
  intros He Hlo H. destruct n_small as [Hn0 Hn2].
  destruct (Z.leb_spec 0 e) as [Hpos | Hneg].
  - replace (Z.max e 0) with e in H by lia. replace (Z.max (- e) 0) with 0 in H by lia.
    rewrite Z.pow_0_r, Z.mul_1_r in H.
    assert (0 < 2 ^ e) by (apply Z.pow_pos_nonneg; lia). nia.
  - replace (Z.max e 0) with 0 in H by lia. replace (Z.max (- e) 0) with (- e) in H by lia.
    rewrite Z.pow_0_r, Z.mul_1_r in H.
    assert (Hmono : 2 ^ (- e) <= 2 ^ (k - 1)) by (apply Z.pow_le_mono_r; lia).
    assert (H2k : 2 ^ k = 2 * 2 ^ (k - 1)).
    { replace k with (Z.succ (k - 1)) at 1 by lia. apply Z.pow_succ_r. lia. }
    nia.
Qed.

Lemma finite_le_const (s : bool) (m : positive) (e : Z) :
  valid_binary prec emax (S754_finite s m e) = true ->
  SFleb (S754_finite s m e) (S754_finite false M (- k)) = true
  <-> float_num (S754_finite s m e) <= n * float_den (S754_finite s m e).
Proof.
  intros Hv. apply valid_mantissa in Hv. destruct Hv as (He & Hhi & Hlo).
  destruct n_small as [Hn0 Hn2].
  cbn [float_num float_den]. unfold SFleb, SFcompare.
  assert (Hden : 0 < 2 ^ Z.max (- e) 0) by (apply Z.pow_pos_nonneg; lia).
  assert (Hnum : 0 < 2 ^ Z.max e 0) by (apply Z.pow_pos_nonneg; lia).
  destruct s; cbn [cond_Zopp].
  - split; [intros _ | reflexivity].
    assert (0 < Zpos m * 2 ^ Z.max e 0) by (apply Z.mul_pos_pos; lia).
    assert (0 < n * 2 ^ Z.max (- e) 0) by (apply Z.mul_pos_pos; lia).
    lia.
  - destruct (Z.compare_spec e (- k)) as [Heq | Hlt | Hgt].
    + replace (Z.max e 0) with 0 by lia. replace (Z.max (- e) 0) with k by lia.
      rewrite Z.pow_0_r, Z.mul_1_r, <- HM.
      rewrite Pos.compare_cont_spec. cbn [Pos.switch_Eq].
      destruct (Pos.compare_spec m M) as [E | L | G]; split; intros H;
        try reflexivity; try discriminate; try lia.
    + split; [intros _ | reflexivity].
      replace (Z.max e 0) with 0 by lia. replace (Z.max (- e) 0) with (- e) by lia.
      rewrite Z.pow_0_r, Z.mul_1_r.
      assert (Hmono : 2 ^ (k + 1) <= 2 ^ (- e)) by (apply Z.pow_le_mono_r; lia).
      rewrite Z.pow_add_r, Z.pow_1_r in Hmono by lia. nia.
    + split; [discriminate|]. intros H. exfalso.
      specialize (Hlo ltac:(lia)).
      apply (pow2_gap e m); [lia | exact Hlo | exact H].
Qed.

Lemma const_le_finite (s : bool) (m : positive) (e : Z) :
  valid_binary prec emax (S754_finite s m e) = true ->
  SFleb (S754_finite true M (- k)) (S754_finite s m e) = true
  <-> - n * float_den (S754_finite s m e) <= float_num (S754_finite s m e).
Proof.
  intros Hv. apply valid_mantissa in Hv. destruct Hv as (He & Hhi & Hlo).
  destruct n_small as [Hn0 Hn2].
  cbn [float_num float_den]. unfold SFleb, SFcompare.
  assert (Hden : 0 < 2 ^ Z.max (- e) 0) by (apply Z.pow_pos_nonneg; lia).
  assert (Hnum : 0 < 2 ^ Z.max e 0) by (apply Z.pow_pos_nonneg; lia).
  destruct s; cbn [cond_Zopp].
  - destruct (Z.compare_spec (- k) e) as [Heq | Hlt | Hgt].
    + replace (Z.max e 0) with 0 by lia. replace (Z.max (- e) 0) with k by lia.
      rewrite Z.pow_0_r, Z.mul_1_r.
      rewrite Pos.compare_cont_spec. cbn [Pos.switch_Eq].
      destruct (Pos.compare_spec M m) as [E | L | G]; cbn [CompOpp]; split; intros H;
        try reflexivity; try discriminate; try lia.
    + split; [discriminate|]. intros H. exfalso.
      specialize (Hlo ltac:(lia)).
      apply (pow2_gap e m); [lia | exact Hlo | lia].
    + split; [intros _ | reflexivity].
      replace (Z.max e 0) with 0 by lia. replace (Z.max (- e) 0) with (- e) by lia.
      rewrite Z.pow_0_r, Z.mul_1_r.
      assert (Hmono : 2 ^ (k + 1) <= 2 ^ (- e)) by (apply Z.pow_le_mono_r; lia).
      rewrite Z.pow_add_r, Z.pow_1_r in Hmono by lia. nia.
  - split; [intros _ | reflexivity].
    assert (0 < Zpos m * 2 ^ Z.max e 0) by (apply Z.mul_pos_pos; lia).
    assert (0 < n * 2 ^ Z.max (- e) 0) by (apply Z.mul_pos_pos; lia).
    lia.
Qed.

End AgainstConstant.

Lemma in_range_exact (M : positive) (k n : Z) (y : float) :
  0 < k < 1074 -> Zpos M = n * 2 ^ k -> 2 ^ 52 <= Zpos M < 2 ^ 53 ->
  valid_binary prec emax y = true ->
  float_le (S754_finite true M (- k)) y && float_le y (S754_finite false M (- k)) = true
  <-> within (- n) n y.
Proof.
  intros Hk HM Hnorm Hv. unfold within, float_le.
  destruct y as [s | s | | s m e].
  - destruct (n_small M k n Hk HM Hnorm) as [Hn0 _].
    cbn. split; [intros _ | reflexivity]. split; [reflexivity | lia].
  - destruct s; cbn; intuition discriminate.
  - cbn; intuition discriminate.
  - rewrite andb_true_iff.
    rewrite (finite_le_const M k n Hk HM Hnorm s m e Hv).
    rewrite (const_le_finite M k n Hk HM Hnorm s m e Hv).
    cbn [is_number]. intuition.
Qed.

Lemma lat_in_range_exact (y : float) :
  valid_binary prec emax y = true ->
  lat_in_range y = true <-> within (-90) 90 y.
Proof.
  intros Hv.
  apply (in_range_exact 6333186975989760 46 90 y); try assumption.
  - lia.
  - reflexivity.
  - split; [vm_compute; discriminate | vm_compute; reflexivity].
Qed.

Lemma lon_in_range_exact (x : float) :
  valid_binary prec emax x = true ->
  lon_in_range x = true <-> within (-180) 180 x.
Proof.
  intros Hv.
  apply (in_range_exact 6333186975989760 45 180 x); try assumption.
  - lia.
  - reflexivity.
  - split; [vm_compute; discriminate | vm_compute; reflexivity].
Qed.

End ExactComparison.

(** ** The runs of the handlers, path by path *)

Ltac unfold_host_calls :=
  unfold try_finally, try_except, canvas_destinationCrs, signal_connect,
    signal_disconnect, with_canvas, new_crs, new_transform, transform_point,
    clipboard_setText, pushMessage, logMessage, sip_isdeleted,
    action_deleteLater, menu_addSeparator, menu_addAction,
    bind, read, modify, emit, ret, raise.

Section Runs.

Variable api : PyQgis.

Lemma copy_run (h : Host) (w : World) :
  copy_google_maps_link_from_context api h w =
  match truthy_point api (clicked_point_canvas_crs w) with
  | None =>
      mkRun (Returns tt) w
        [MessageBar "Error"
           "Could not get clicked point. Please right-click on the map again."
           Qgis_Critical 4;
         MessageLog
           "copy_google_maps_link_from_context: clicked_point_canvas_crs is None."
           plugin_name Qgis_Warning]
  | Some p =>
      match canvas w with
      | None =>
          let m := ("Error copying Google Maps link: "
                      ++ "'NoneType' object has no attribute 'mapSettings'")%string in
          mkRun (Returns tt) (set_clicked_point None w)
            [MessageBar "Error" m Qgis_Critical 5;
             MessageLog m plugin_name Qgis_Critical]
      | Some _ =>
          if canvas_deleted w then
            let m := ("Error copying Google Maps link: "
                        ++ "wrapped C/C++ object of type QgsMapCanvas has been deleted")%string in
            mkRun (Returns tt) (set_clicked_point None w)
              [MessageBar "Error" m Qgis_Critical 5;
               MessageLog m plugin_name Qgis_Critical]
          else if isValid (destinationCrs h) then
            let target := crs_from_string h "EPSG:4326" in
            if isValid target then
              match transform h (destinationCrs h) target p with
              | inl e =>
                  let m := ("Error copying Google Maps link: " ++ exc_str e)%string in
                  mkRun (Returns tt) (set_clicked_point None w)
                    [CanvasDestinationCrs; CrsConstructed "EPSG:4326";
                     TransformConstructed (destinationCrs h) target;
                     TransformCalled p;
                     MessageBar "Error" m Qgis_Critical 5;
                     MessageLog m plugin_name Qgis_Critical]
              | inr q =>
                  if invalid_wgs84 q then
                    mkRun (Returns tt) (set_clicked_point None w)
                      [CanvasDestinationCrs; CrsConstructed "EPSG:4326";
                       TransformConstructed (destinationCrs h) target;
                       TransformCalled p;
                       MessageBar "Error"
                         "Coordinate transformation failed or resulted in invalid WGS84 coordinates. Check project CRS."
                         Qgis_Critical 5;
                       MessageLog
                         ("Coordinate transformation resulted in invalid WGS84. Original: "
                            ++ point_toString api p ++ ", Canvas CRS: "
                            ++ authid (destinationCrs h) ++ ", Transformed: "
                            ++ point_toString api q)
                         plugin_name Qgis_Critical]
                  else
                    let link :=
                      ("https://www.google.com/maps?q="
                         ++ float_str api (QgsPointXY.y q) ++ ","
                         ++ float_str api (QgsPointXY.x q))%string in
                    mkRun (Returns tt)
                      (set_clicked_point None (set_clipboard link w))
                      [CanvasDestinationCrs; CrsConstructed "EPSG:4326";
                       TransformConstructed (destinationCrs h) target;
                       TransformCalled p;
                       ClipboardSetText link;
                       MessageBar "Success" ("Google Maps link copied: " ++ link)
                         Qgis_Success 5]
              end
            else
              mkRun (Returns tt) (set_clicked_point None w)
                [CanvasDestinationCrs; CrsConstructed "EPSG:4326";
                 MessageBar "Error" "Could not define target CRS (EPSG:4326)."
                   Qgis_Critical 5;
                 MessageLog "Failed to initialize EPSG:4326." plugin_name
                   Qgis_Critical]
          else
            mkRun (Returns tt) (set_clicked_point None w)
              [CanvasDestinationCrs;
               MessageBar "Error"
                 "Invalid Canvas CRS. Cannot perform transformation."
                 Qgis_Critical 5;
               MessageLog ("Invalid Canvas CRS: " ++ authid (destinationCrs h))
                 plugin_name Qgis_Critical]
      end
  end.
Proof.
  destruct w as [cl cv act cdel conn adel asched clip].
  unfold copy_google_maps_link_from_context. unfold_host_calls. cbn.
  destruct (truthy_point api cl) as [p|]; [|reflexivity].
  destruct cv as [c|]; cbn; [|reflexivity].
  destruct cdel; cbn; [reflexivity|].
  destruct (isValid (destinationCrs h)); cbn; [|reflexivity].
  destruct (isValid (crs_from_string h "EPSG:4326")); cbn; [|reflexivity].
  destruct (transform h (destinationCrs h) (crs_from_string h "EPSG:4326") p)
    as [e|q]; cbn; [reflexivity|].
  destruct (invalid_wgs84 q); reflexivity.
Qed.

Lemma prepare_run (event : option QgsMapMouseEvent) (w : World) :
  prepare_canvas_context_menu api event w =
  match valid_map_point api event with
  | Some p =>
      match context_menu_action w with
      | None =>
          mkRun (Returns tt) (set_clicked_point (Some p) w) [MenuAddSeparator]
      | Some a =>
          if action_deleted w then
            mkRun
              (Raises (mkExc RuntimeError
                         "wrapped C/C++ object of type QAction has been deleted"))
              (set_clicked_point (Some p) w) [MenuAddSeparator]
          else
            mkRun (Returns tt) (set_clicked_point (Some p) w)
              [MenuAddSeparator; MenuAddAction a]
      end
  | None =>
      mkRun (Returns tt) w
        [MessageLog
           (plugin_name ++
            ": prepare_canvas_context_menu called without a valid event or mapPoint.")
           plugin_name Qgis_Warning]
  end.
Proof.
  destruct w as [cl cv act cdel conn adel asched clip].
  unfold prepare_canvas_context_menu. unfold_host_calls. cbn.
  destruct (valid_map_point api event) as [p|]; [|reflexivity].
  destruct act as [a|]; cbn; [|reflexivity].
  destruct adel; reflexivity.
Qed.

Lemma truthy_point_Some (v : option QgsPointXY.t) (p : QgsPointXY.t) :
  v = Some p -> point_bool api p = true -> truthy_point api v = Some p.
Proof. intros -> H. unfold truthy_point. rewrite H. reflexivity. Qed.

End Runs.

Lemma unload_final (w : World) :
  final (unload w) =
  mkWorld (clicked_point_canvas_crs w) (canvas w) None (canvas_deleted w)
    (match canvas w with
     | Some _ => if canvas_deleted w then connections w else pred (connections w)
     | None => connections w
     end)
    (action_deleted w)
    (match context_menu_action w with
     | Some _ => if action_deleted w then action_delete_scheduled w else true
     | None => action_delete_scheduled w
     end)
    (clipboard w).
Proof.
  destruct w as [cl cv act cdel conn adel asched clip].
  unfold unload. unfold_host_calls. cbn.
  destruct cv as [c|], cdel, conn as [|n], act as [a|], adel; reflexivity.
Qed.

Lemma unload_returns (w : World) :
  completed (unload w) = Returns tt
  /\ ui_messages (emitted (unload w)) = []
  /\ clipboard_writes (emitted (unload w)) = [].
Proof.
  destruct w as [cl cv act cdel conn adel asched clip].
  unfold unload. unfold_host_calls. cbn.
  destruct cv as [c|], cdel, conn as [|n], act as [a|], adel; cbn; auto.
Qed.

(** ** Every state of the plugin's life is consistent *)

Section Invariant.

Variable api : PyQgis.

Lemma valid_map_point_inv (event : option QgsMapMouseEvent) (p : QgsPointXY.t) :
  valid_map_point api event = Some p ->
  exists ev, event = Some ev /\ mapPoint ev = p /\ point_bool api p = true.
Proof.
  unfold valid_map_point. destruct event as [ev|]; [|discriminate].
  destruct (point_bool api (mapPoint ev)) eqn:E; [|discriminate].
  intros H. injection H as <-. exists ev. auto.
Qed.

Lemma prepare_final (event : option QgsMapMouseEvent) (w : World) :
  final (prepare_canvas_context_menu api event w) =
  match valid_map_point api event with
  | Some p => set_clicked_point (Some p) w
  | None => w
  end.
Proof.
  rewrite prepare_run.
  destruct (valid_map_point api event); [|reflexivity].
  destruct (context_menu_action w); [|reflexivity].
  destruct (action_deleted w); reflexivity.
Qed.

Lemma copy_final (h : Host) (w : World) :
  let w' := final (copy_google_maps_link_from_context api h w) in
  same_qt_objects w w'
  /\ (clicked_point_canvas_crs w' = None
      \/ clicked_point_canvas_crs w' = clicked_point_canvas_crs w).
Proof.
  cbv zeta. rewrite copy_run. unfold same_qt_objects.
  destruct (truthy_point api (clicked_point_canvas_crs w)) as [p|]; [|cbn; tauto].
  destruct (canvas w) as [c|] eqn:Hc; [|cbn; rewrite Hc; tauto].
  destruct (canvas_deleted w) eqn:Hd; [cbn; rewrite Hc, Hd; tauto|].
  destruct (isValid (destinationCrs h)); [|cbn; rewrite Hc, Hd; tauto].
  destruct (isValid (crs_from_string h "EPSG:4326")); [|cbn; rewrite Hc, Hd; tauto].
  destruct (transform h (destinationCrs h) (crs_from_string h "EPSG:4326") p)
    as [e|q]; [cbn; rewrite Hc, Hd; tauto|].
  destruct (invalid_wgs84 q); cbn; rewrite Hc, Hd; tauto.
Qed.

Lemma consistent_frame (w w' : World) :
  consistent api w -> same_qt_objects w w' ->
  (forall p, clicked_point_canvas_crs w' = Some p -> point_bool api p = true) ->
  consistent api w'.
Proof.
  intros [H1 H2 H3 H4 H5] (Ec & Ea & Ed & En & Eg & Es) Hp.
  constructor; rewrite ?Ec, ?Ea, ?Ed, ?En, ?Eg, ?Es; assumption.
Qed.

Lemma lifecycle_consistent (w : World) : lifecycle api w -> consistent api w.
Proof.
  induction 1 as [clip cv Hret | w event Hw IH Hconn | w h Hw IH | w Hw IH
                 | w Hw IH | w Hw IH Hs | w s Hw IH].
  - destruct cv as [[]|]; [|discriminate Hret].
    constructor; cbn; intros; try discriminate; auto.
  - rewrite prepare_final.
    destruct (valid_map_point api event) as [p|] eqn:Hv; [|exact IH].
    apply valid_map_point_inv in Hv. destruct Hv as (ev & _ & _ & Hb).
    apply (consistent_frame w); [exact IH | repeat split |].
    cbn. intros p' Hp'. injection Hp' as <-. exact Hb.
  - destruct (copy_final h w) as [Hsame Hcl].
    apply (consistent_frame w); [exact IH | exact Hsame |].
    intros p Hp. destruct Hcl as [Hn | He].
    + rewrite Hn in Hp. discriminate Hp.
    + rewrite He in Hp. exact (cons_truthy api w IH p Hp).
  - destruct IH as [H1 H2 H3 H4 H5].
    assert (Hz : connections (final (unload w)) = 0).
    { rewrite unload_final. cbn.
      destruct (connections w) as [|[|n]] eqn:En.
      - destruct (canvas w); [destruct (canvas_deleted w)|]; reflexivity.
      - destruct H3 as [Hc Hd]; [lia|]. rewrite Hc, Hd. reflexivity.
      - lia. }
    constructor; rewrite ?Hz; try lia; auto.
    rewrite unload_final. cbn. exact H5.
  - destruct IH as [H1 H2 H3 H4 H5].
    constructor; cbn; try lia; auto.
  - destruct IH as [H1 H2 H3 H4 H5].
    constructor; cbn; auto; intros Hc; rewrite (H4 Hs) in Hc; lia.
  - apply (consistent_frame w); [exact IH | repeat split |].
    exact (cons_truthy api w IH).
Qed.

End Invariant.

(** ** Strings *)

Lemma append_empty_r (s : string) : (s ++ "")%string = s.
Proof. induction s as [|c s IH]; cbn; [reflexivity | rewrite IH; reflexivity]. Qed.

Lemma contains_suffix (before needle : string) :
  contains (before ++ needle) needle.
Proof. exists before, ""%string. rewrite append_empty_r. reflexivity. Qed.

(** ** The copy action *)

Section CopyAction.

Variable api : PyQgis.

(** C1. When a point was captured, the canvas reference system is valid,
    EPSG:4326 can be built, the transform returns a point whose
    components (binary64 data, as every Python float) are neither NaN nor
    infinite, of latitude whose exact value is within [-90, 90] and
    longitude within [-180, 180], the action returns normally, writes the
    link "https://www.google.com/maps?q=<lat>,<lon>" (lat the transformed
    y, lon the transformed x) to the clipboard and nothing else, shows one
    message, the success message, which contains that link, and leaves no
    captured point. *)
Theorem copy_success_writes_link (h : Host) (w : World) (p q : QgsPointXY.t) :
  clicked_point_canvas_crs w = Some p ->
  point_bool api p = true ->
  canvas w = Some MapCanvas ->
  canvas_deleted w = false ->
  isValid (destinationCrs h) = true ->
  isValid (crs_from_string h "EPSG:4326") = true ->
  transform h (destinationCrs h) (crs_from_string h "EPSG:4326") p = inr q ->
  valid_binary prec emax (QgsPointXY.x q) = true ->
  valid_binary prec emax (QgsPointXY.y q) = true ->
  is_nan (QgsPointXY.x q) = false ->
  is_nan (QgsPointXY.y q) = false ->
  is_infinite (QgsPointXY.x q) = false ->
  is_infinite (QgsPointXY.y q) = false ->
  within (-90) 90 (QgsPointXY.y q) ->
  within (-180) 180 (QgsPointXY.x q) ->
  let r := copy_google_maps_link_from_context api h w in
  let link :=
    ("https://www.google.com/maps?q=" ++ float_str api (QgsPointXY.y q)
       ++ "," ++ float_str api (QgsPointXY.x q))%string in
  completed r = Returns tt
  /\ clipboard_writes (emitted r) = [link]
  /\ clipboard (final r) = link
  /\ ui_messages (emitted r) =
       [MessageBar "Success" ("Google Maps link copied: " ++ link) Qgis_Success 5]
  /\ contains ("Google Maps link copied: " ++ link) link
  /\ outcomes (emitted r) = [LinkCopied]
  /\ clicked_point_canvas_crs (final r) = None.
Proof.
  intros Hcl Hb Hc Hd Hs Ht Hx Hvx Hvy Hnx Hny Hix Hiy Hlat Hlon r link.
  apply (lat_in_range_exact _ Hvy) in Hlat.
  apply (lon_in_range_exact _ Hvx) in Hlon.
  assert (Hinv : invalid_wgs84 q = false).
  { rewrite invalid_wgs84_eq, Hnx, Hny, Hix, Hiy, Hlat, Hlon. reflexivity. }
  subst r. rewrite copy_run, (truthy_point_Some api _ p Hcl Hb), Hc, Hd, Hs.
  cbv zeta. rewrite Ht, Hx, Hinv. fold link.
  repeat (split; [reflexivity|]).
  split; [apply contains_suffix|].
  split; reflexivity.
Qed.

(** C2. Whatever the host answers, and so whichever of the six paths
    runs, the copy action invoked in any state of the plugin's life leaves
    no captured point. *)
Theorem copy_always_clears_point (h : Host) (w : World) :
  lifecycle api w ->
  clicked_point_canvas_crs
    (final (copy_google_maps_link_from_context api h w)) = None.
Proof.
  intros Hw. pose proof (lifecycle_consistent api w Hw) as Hcons.
  rewrite copy_run.
  destruct (clicked_point_canvas_crs w) as [p|] eqn:Hcl.
  - rewrite (truthy_point_Some api (Some p) p eq_refl (cons_truthy api w Hcons p Hcl)).
    destruct (canvas w) as [c|]; [|reflexivity].
    destruct (canvas_deleted w); [reflexivity|].
    destruct (isValid (destinationCrs h)); [|reflexivity].
    cbv zeta.
    destruct (isValid (crs_from_string h "EPSG:4326")); [|reflexivity].
    destruct (transform h (destinationCrs h) (crs_from_string h "EPSG:4326") p)
      as [e|q]; [reflexivity|].
    destruct (invalid_wgs84 q); reflexivity.
  - cbn. exact Hcl.
Qed.

(** C3. When the transform returns a point (of binary64 components, as
    every Python float) whose latitude is not a number of [-90, 90], or
    whose longitude is not a number of [-180, 180], or one of whose
    components is NaN or infinite, the action returns normally on the
    InvalidTransformResult path: one error message on the message bar, no
    captured point left, no write to the clipboard. *)
Theorem copy_rejects_invalid_result (h : Host) (w : World) (p q : QgsPointXY.t) :
  clicked_point_canvas_crs w = Some p ->
  point_bool api p = true ->
  canvas w = Some MapCanvas ->
  canvas_deleted w = false ->
  isValid (destinationCrs h) = true ->
  isValid (crs_from_string h "EPSG:4326") = true ->
  transform h (destinationCrs h) (crs_from_string h "EPSG:4326") p = inr q ->
  valid_binary prec emax (QgsPointXY.x q) = true ->
  valid_binary prec emax (QgsPointXY.y q) = true ->
  (~ within (-90) 90 (QgsPointXY.y q)
   \/ ~ within (-180) 180 (QgsPointXY.x q)
   \/ is_nan (QgsPointXY.x q) = true \/ is_nan (QgsPointXY.y q) = true
   \/ is_infinite (QgsPointXY.x q) = true
   \/ is_infinite (QgsPointXY.y q) = true) ->
  let r := copy_google_maps_link_from_context api h w in
  completed r = Returns tt
  /\ outcomes (emitted r) = [InvalidTransformResult]
  /\ ui_messages (emitted r) =
       [MessageBar "Error"
          "Coordinate transformation failed or resulted in invalid WGS84 coordinates. Check project CRS."
          Qgis_Critical 5]
  /\ clicked_point_canvas_crs (final r) = None
  /\ clipboard_writes (emitted r) = []
  /\ clipboard (final r) = clipboard w.
Proof.
  intros Hcl Hb Hc Hd Hs Ht Hx Hvx Hvy Hbad r.
  rewrite <- (lat_in_range_exact _ Hvy), <- (lon_in_range_exact _ Hvx) in Hbad.
  rewrite !not_true_iff_false in Hbad.
  apply invalid_wgs84_true_iff in Hbad.
  subst r. rewrite copy_run, (truthy_point_Some api _ p Hcl Hb), Hc, Hd, Hs.
  cbv zeta. rewrite Ht, Hx, Hbad.
  repeat (split; [reflexivity|]). reflexivity.
Qed.

(** C4. Invoked with no captured point, the action returns normally on
    the NoPointCaptured path: one error message shown for four seconds,
    no query to the canvas or to the reference-system service, no write
    to the clipboard, nothing changed. *)
Theorem copy_without_point (h : Host) (w : World) :
  clicked_point_canvas_crs w = None ->
  let r := copy_google_maps_link_from_context api h w in
  completed r = Returns tt
  /\ outcomes (emitted r) = [NoPointCaptured]
  /\ ui_messages (emitted r) =
       [MessageBar "Error"
          "Could not get clicked point. Please right-click on the map again."
          Qgis_Critical 4]
  /\ clipboard_writes (emitted r) = []
  /\ crs_calls (emitted r) = []
  /\ final r = w.
Proof.
  intros Hcl r. subst r. rewrite copy_run, Hcl. cbn [truthy_point].
  repeat (split; [reflexivity|]). reflexivity.
Qed.

(** C6. When the transform raises, whatever the exception, the action
    returns normally on the TransformError path: the one message shown
    is an error whose text ends with the text of the exception, the same
    text goes to the log, no captured point is left and the clipboard is
    not written. *)
Theorem copy_reports_transform_exception
    (h : Host) (w : World) (p : QgsPointXY.t) (e : PyException) :
  clicked_point_canvas_crs w = Some p ->
  point_bool api p = true ->
  canvas w = Some MapCanvas ->
  canvas_deleted w = false ->
  isValid (destinationCrs h) = true ->
  isValid (crs_from_string h "EPSG:4326") = true ->
  transform h (destinationCrs h) (crs_from_string h "EPSG:4326") p = inl e ->
  let r := copy_google_maps_link_from_context api h w in
  let error_message := ("Error copying Google Maps link: " ++ exc_str e)%string in
  completed r = Returns tt
  /\ outcomes (emitted r) = [TransformError]
  /\ ui_messages (emitted r) = [MessageBar "Error" error_message Qgis_Critical 5]
  /\ log_entries (emitted r) = [MessageLog error_message plugin_name Qgis_Critical]
  /\ contains error_message (exc_str e)
  /\ clicked_point_canvas_crs (final r) = None
  /\ clipboard_writes (emitted r) = []
  /\ clipboard (final r) = clipboard w.
Proof.
  intros Hcl Hb Hc Hd Hs Ht Hx r error_message.
  subst r. rewrite copy_run, (truthy_point_Some api _ p Hcl Hb), Hc, Hd, Hs.
  cbv zeta. rewrite Ht, Hx. fold error_message.
  repeat (split; [reflexivity|]).
  split; [apply contains_suffix|].
  repeat (split; [reflexivity|]). reflexivity.
Qed.

End CopyAction.

(** The eight ways through the copy action: no usable point, canvas
    attribute empty, canvas object gone, canvas reference system invalid,
    EPSG:4326 invalid, transform raising, transformed point rejected,
    link copied. *)
Ltac copy_paths api h w :=
  rewrite (copy_run api h w);
  let p := fresh "p" in
  let c := fresh "c" in
  let e := fresh "e" in
  let q := fresh "q" in
  destruct (truthy_point api (clicked_point_canvas_crs w)) as [p|] eqn:Hp;
  [ destruct (canvas w) as [c|] eqn:Hc;
    [ destruct (canvas_deleted w) eqn:Hd;
      [ | destruct (isValid (destinationCrs h)) eqn:Hs;
          [ cbv zeta;
            destruct (isValid (crs_from_string h "EPSG:4326")) eqn:Ht;
            [ destruct (transform h (destinationCrs h)
                          (crs_from_string h "EPSG:4326") p) as [e|q] eqn:Hx;
              [ | destruct (invalid_wgs84 q) eqn:Hq ]
            | ]
          | ] ]
    | ]
  | ].

Ltac open_cases :=
  repeat match goal with
         | |- _ /\ _ => split
         | |- forall _, _ => intro
         end.

Ltac same_point :=
  repeat match goal with
         | H : Some _ = Some _ |- _ => injection H as H; subst
         end.

Section CopyOutcomes.

Variable api : PyQgis.

(** C5. Every invocation of the copy action shows exactly one of the six
    outcomes, and the checks come in the order of the source: without a
    point nothing is asked of the canvas or of the reference-system
    service; with an invalid canvas reference system the canvas is the
    only thing asked and EPSG:4326 is not built; with an invalid EPSG:4326
    no transform is built or run; with both valid the transform is run
    once and its result decides between TransformError,
    InvalidTransformResult and the copied link.  When the canvas itself
    cannot be reached, the exception is reported by the handler of the
    try block, the one that reports TransformError, before any query. *)
Theorem copy_outcomes_exclusive_in_order (h : Host) (w : World) :
  let r := copy_google_maps_link_from_context api h w in
  let target := crs_from_string h "EPSG:4326" in
  (exists o, outcomes (emitted r) = [o])
  /\ (truthy_point api (clicked_point_canvas_crs w) = None ->
      outcomes (emitted r) = [NoPointCaptured] /\ crs_calls (emitted r) = [])
  /\ (forall p, truthy_point api (clicked_point_canvas_crs w) = Some p ->
      canvas w = None \/ canvas_deleted w = true ->
      outcomes (emitted r) = [TransformError] /\ crs_calls (emitted r) = [])
  /\ (forall p, truthy_point api (clicked_point_canvas_crs w) = Some p ->
      canvas w = Some MapCanvas -> canvas_deleted w = false ->
      isValid (destinationCrs h) = false ->
      outcomes (emitted r) = [InvalidSourceCRS]
      /\ crs_calls (emitted r) = [CanvasDestinationCrs])
  /\ (forall p, truthy_point api (clicked_point_canvas_crs w) = Some p ->
      canvas w = Some MapCanvas -> canvas_deleted w = false ->
      isValid (destinationCrs h) = true -> isValid target = false ->
      outcomes (emitted r) = [InvalidTargetCRS]
      /\ crs_calls (emitted r) = [CanvasDestinationCrs; CrsConstructed "EPSG:4326"])
  /\ (forall p, truthy_point api (clicked_point_canvas_crs w) = Some p ->
      canvas w = Some MapCanvas -> canvas_deleted w = false ->
      isValid (destinationCrs h) = true -> isValid target = true ->
      crs_calls (emitted r) =
        [CanvasDestinationCrs; CrsConstructed "EPSG:4326";
         TransformConstructed (destinationCrs h) target; TransformCalled p]
      /\ (forall e, transform h (destinationCrs h) target p = inl e ->
          outcomes (emitted r) = [TransformError])
      /\ (forall q, transform h (destinationCrs h) target p = inr q ->
          invalid_wgs84 q = true ->
          outcomes (emitted r) = [InvalidTransformResult])
      /\ (forall q, transform h (destinationCrs h) target p = inr q ->
          invalid_wgs84 q = false ->
          outcomes (emitted r) = [LinkCopied])).
Proof.
  cbv zeta.
  copy_paths api h w;
    (split; [eexists; reflexivity|]);
    open_cases; same_point;
    try discriminate; try reflexivity;
    try match goal with H : _ \/ _ |- _ => destruct H end;
    congruence.
Qed.

(** C10. The copy action writes to the clipboard exactly when it takes
    the success path, and then once, the link; on each of the five
    failure paths it writes nothing and the clipboard keeps its text. *)
Theorem clipboard_written_iff_success (h : Host) (w : World) :
  let r := copy_google_maps_link_from_context api h w in
  (clipboard_writes (emitted r) <> [] <-> outcomes (emitted r) = [LinkCopied])
  /\ (outcomes (emitted r) = [LinkCopied] ->
      exists q,
        clipboard_writes (emitted r) = [google_maps_link api q]
        /\ clipboard (final r) = google_maps_link api q)
  /\ (forall o, o <> LinkCopied -> outcomes (emitted r) = [o] ->
      clipboard_writes (emitted r) = [] /\ clipboard (final r) = clipboard w).
Proof.
  cbv zeta.
  copy_paths api h w.
  4: { split; [split; intros H; [reflexivity | discriminate]|].
       split; [intros _; exists q; split; reflexivity|].
       intros o Ho Hout. injection Hout as <-. contradiction. }
  all: split; [split; intros H; [exfalso; apply H; reflexivity | discriminate H]|].
  all: split; [intros H; discriminate H|].
  all: intros o _ _; split; reflexivity.
Qed.

End CopyOutcomes.

(** ** The menu handler *)

Section MenuHandler.

Variable api : PyQgis.

(** C7. When the host calls the connected handler in a state of the
    plugin's life: for an event that carries a valid map point, the point
    becomes the captured point, and a separator followed by the entry
    "Copy Google Maps Link Here" is appended to the supplied menu; for an
    invalid event (no event, or no map point) the menu is left as it
    was, one warning goes to the log, and nothing is shown to the user.
    Neither case raises or shows a message. *)
Theorem prepare_menu_valid_or_invalid
    (w : World) (menu : QMenu) (event : option QgsMapMouseEvent) :
  lifecycle api w ->
  0 < connections w ->
  let r := prepare_canvas_context_menu api event w in
  (forall ev, event = Some ev -> point_bool api (mapPoint ev) = true ->
     completed r = Returns tt
     /\ clicked_point_canvas_crs (final r) = Some (mapPoint ev)
     /\ menu_after menu (emitted r) =
          menu ++ [Separator; ActionItem (mkAction "Copy Google Maps Link Here")]
     /\ ui_messages (emitted r) = [])
  /\ (event = None
      \/ (exists ev, event = Some ev /\ point_bool api (mapPoint ev) = false) ->
     completed r = Returns tt
     /\ menu_after menu (emitted r) = menu
     /\ emitted r =
          [MessageLog
             "Copy Google Maps Link: prepare_canvas_context_menu called without a valid event or mapPoint."
             "Copy Google Maps Link" Qgis_Warning]
     /\ ui_messages (emitted r) = []
     /\ final r = w).
Proof.
  intros Hw Hconn r.
  pose proof (lifecycle_consistent api w Hw) as Hcons.
  destruct (cons_connected api w Hcons Hconn) as [Hact Hlive].
  subst r. rewrite prepare_run, Hact, Hlive. split.
  - intros ev -> Hb. cbn [valid_map_point]. rewrite Hb.
    cbn [completed final emitted menu_after ui_messages].
    rewrite <- app_assoc. repeat (split; [reflexivity|]). reflexivity.
  - intros [-> | (ev & -> & Hb)]; cbn [valid_map_point]; rewrite ?Hb;
      repeat (split; [reflexivity|]); reflexivity.
Qed.

(** C9. The handler invoked with an invalid event (no event, or no map
    point) changes nothing: the captured point is the one stored before,
    so the copy action run next behaves as it would have without that
    invocation. *)
Theorem prepare_invalid_event_keeps_point
    (w : World) (event : option QgsMapMouseEvent) (h : Host) :
  event = None
  \/ (exists ev, event = Some ev /\ point_bool api (mapPoint ev) = false) ->
  let w' := final (prepare_canvas_context_menu api event w) in
  clicked_point_canvas_crs w' = clicked_point_canvas_crs w
  /\ w' = w
  /\ copy_google_maps_link_from_context api h w'
     = copy_google_maps_link_from_context api h w.
Proof.
  intros Hinvalid w'.
  assert (Hsame : w' = w).
  { subst w'. rewrite prepare_final.
    destruct Hinvalid as [-> | (ev & -> & Hb)]; cbn [valid_map_point];
      rewrite ?Hb; reflexivity. }
  rewrite Hsame. repeat split; reflexivity.
Qed.

End MenuHandler.

(** ** Unloading *)

(** C8. [unload] never raises, in any state; run twice in a row, neither
    run raises, shows a message or writes to the clipboard; the first run
    drops the reference to the action, so the second does not call
    [deleteLater] again; for a plugin with a live canvas and at most one
    connection, the second run finds the signal disconnected, PyQt raises
    TypeError, and the run logs a warning and goes on. *)
Theorem unload_twice_is_tolerated (w : World) :
  let first := unload w in
  let second := unload (final first) in
  completed first = Returns tt
  /\ completed second = Returns tt
  /\ ui_messages (emitted first ++ emitted second) = []
  /\ clipboard_writes (emitted first ++ emitted second) = []
  /\ context_menu_action (final first) = None
  /\ ~ In ActionDeleteLater (emitted second)
  /\ (canvas w = Some MapCanvas -> canvas_deleted w = false ->
      connections w <= 1 ->
      emitted second =
        [MessageLog
           "Copy Google Maps Link: Signal (contextMenuAboutToShow) was already disconnected or not connected."
           "Copy Google Maps Link" Qgis_Warning;
         MessageLog "Copy Google Maps Link: Unloaded successfully."
           "Copy Google Maps Link" Qgis_Info]).
Proof.
  destruct w as [cl cv act cdel conn adel asched clip].
  cbv zeta. rewrite unload_final. cbn [canvas canvas_deleted connections
    context_menu_action action_deleted action_delete_scheduled
    clicked_point_canvas_crs clipboard].
  unfold unload. unfold_host_calls.
  destruct cv as [[]|], cdel, conn as [|[|n]], act as [a|], adel;
    cbn; repeat split; try reflexivity; intros; try discriminate; try lia;
    intuition discriminate.
Qed.

(** ** The sample session, run *)

Lemma sample_loaded_life : lifecycle Sample.api Sample.loaded.
Proof. unfold Sample.loaded. apply lc_loaded. reflexivity. Qed.

Lemma sample_loaded_connected : 0 < connections Sample.loaded.
Proof. change (0 < 1). lia. Qed.

Lemma sample_right_clicked_life : lifecycle Sample.api Sample.right_clicked.
Proof.
  unfold Sample.right_clicked. apply lc_context_menu.
  - exact sample_loaded_life.
  - exact sample_loaded_connected.
Qed.

Lemma sample_latitude_within : within (-90) 90 Sample.lat.
Proof. split; [reflexivity | split; vm_compute; discriminate]. Qed.

Lemma sample_longitude_within : within (-180) 180 Sample.lon.
Proof. split; [reflexivity | split; vm_compute; discriminate]. Qed.

Lemma sample_off_the_globe_outside : ~ within (-180) 180 (float_of_int 181).
Proof. intros [_ [_ H]]. vm_compute in H. apply H. reflexivity. Qed.

Lemma copy_success_writes_link_witness :
  clipboard
    (final (copy_google_maps_link_from_context Sample.api Sample.host
              Sample.right_clicked))
  = "https://www.google.com/maps?q=40.7128,-74.006"%string
  /\ clipboard_writes
       (emitted (copy_google_maps_link_from_context Sample.api Sample.host
                   Sample.right_clicked))
     = ["https://www.google.com/maps?q=40.7128,-74.006"%string].
Proof.
  pose proof
    (copy_success_writes_link Sample.api Sample.host Sample.right_clicked
       Sample.clicked Sample.new_york
       eq_refl eq_refl eq_refl eq_refl eq_refl eq_refl eq_refl
       eq_refl eq_refl eq_refl eq_refl eq_refl eq_refl
       sample_latitude_within sample_longitude_within) as H.
  cbv zeta in H. destruct H as (_ & Hwrites & Hclip & _).
  split; [exact Hclip | exact Hwrites].
Defined.

Lemma copy_always_clears_point_witness :
  clicked_point_canvas_crs
    (final (copy_google_maps_link_from_context Sample.api Sample.host_failing
              Sample.right_clicked)) = None.
Proof.
  exact (copy_always_clears_point Sample.api Sample.host_failing
           Sample.right_clicked sample_right_clicked_life).
Defined.

Lemma copy_rejects_invalid_result_witness :
  outcomes
    (emitted (copy_google_maps_link_from_context Sample.api
                Sample.host_off_the_globe Sample.right_clicked))
  = [InvalidTransformResult]
  /\ clipboard_writes
       (emitted (copy_google_maps_link_from_context Sample.api
                   Sample.host_off_the_globe Sample.right_clicked)) = [].
Proof.
  pose proof
    (copy_rejects_invalid_result Sample.api Sample.host_off_the_globe
       Sample.right_clicked Sample.clicked Sample.off_the_globe
       eq_refl eq_refl eq_refl eq_refl eq_refl eq_refl eq_refl
       eq_refl eq_refl
       (or_intror (or_introl sample_off_the_globe_outside))) as H.
  cbv zeta in H. destruct H as (_ & Hout & _ & _ & Hwrites & _).
  split; [exact Hout | exact Hwrites].
Defined.

Lemma copy_without_point_witness :
  outcomes
    (emitted (copy_google_maps_link_from_context Sample.api Sample.host
                Sample.loaded))
  = [NoPointCaptured]
  /\ final (copy_google_maps_link_from_context Sample.api Sample.host
              Sample.loaded) = Sample.loaded.
Proof.
  pose proof (copy_without_point Sample.api Sample.host Sample.loaded eq_refl) as H.
  cbv zeta in H. destruct H as (_ & Hout & _ & _ & _ & Hsame).
  split; [exact Hout | exact Hsame].
Defined.

Lemma copy_reports_transform_exception_witness :
  ui_messages
    (emitted (copy_google_maps_link_from_context Sample.api Sample.host_failing
                Sample.right_clicked))
  = [MessageBar "Error"
       "Error copying Google Maps link: forward transform failed"
       Qgis_Critical 5]
  /\ clipboard_writes
       (emitted (copy_google_maps_link_from_context Sample.api
                   Sample.host_failing Sample.right_clicked)) = [].
Proof.
  pose proof
    (copy_reports_transform_exception Sample.api Sample.host_failing
       Sample.right_clicked Sample.clicked Sample.transform_failure
       eq_refl eq_refl eq_refl eq_refl eq_refl eq_refl eq_refl) as H.
  cbv zeta in H. destruct H as (_ & _ & Hui & _ & _ & _ & Hwrites & _).
  split; [exact Hui | exact Hwrites].
Defined.

Lemma prepare_menu_valid_or_invalid_witness :
  menu_after []
    (emitted (prepare_canvas_context_menu Sample.api Sample.right_click
                Sample.loaded))
  = [Separator; ActionItem (mkAction "Copy Google Maps Link Here")]
  /\ clicked_point_canvas_crs Sample.right_clicked = Some Sample.clicked.
Proof.
  pose proof
    (prepare_menu_valid_or_invalid Sample.api Sample.loaded []
       Sample.right_click sample_loaded_life sample_loaded_connected) as H.
  cbv zeta in H. destruct H as [Hvalid _].
  destruct (Hvalid (mkMouseEvent Sample.clicked) eq_refl eq_refl)
    as (_ & Hpoint & Hmenu & _).
  split; [exact Hmenu | exact Hpoint].
Defined.

Lemma prepare_invalid_event_keeps_point_witness :
  clicked_point_canvas_crs
    (final (prepare_canvas_context_menu Sample.api None Sample.right_clicked))
  = Some Sample.clicked.
Proof.
  pose proof
    (prepare_invalid_event_keeps_point Sample.api Sample.right_clicked None
       Sample.host (or_introl eq_refl)) as H.
  cbv zeta in H. destruct H as (Hpoint & _).
  exact Hpoint.
Defined.

(** * Further properties of the handlers *)

(** ** The validity test, seen from outside *)

(** X1. The NaN and infinity tests of the validity check add nothing to
    its range test: the check rejects a transformed point exactly when one
    of the two range comparisons fails. *)
Theorem invalid_wgs84_is_range_test (q : QgsPointXY.t) :
  invalid_wgs84 q
  = negb (lat_in_range (QgsPointXY.y q) && lon_in_range (QgsPointXY.x q)).
Proof.
  rewrite invalid_wgs84_eq.
  destruct (lat_in_range (QgsPointXY.y q)) eqn:Hlat;
    [destruct (lon_in_range (QgsPointXY.x q)) eqn:Hlon|].
  - destruct (lat_in_range_finite _ Hlat) as [-> ->].
    destruct (lon_in_range_finite _ Hlon) as [-> ->]. reflexivity.
  - rewrite andb_false_r. apply orb_true_r.
  - apply orb_true_r.
Qed.

(** X2. On binary64 components the validity check accepts a transformed
    point exactly when the exact value of its latitude is a number of
    [-90, 90] and that of its longitude a number of [-180, 180], bounds
    included. *)
Theorem wgs84_accepted_exactly_in_range (q : QgsPointXY.t) :
  valid_binary prec emax (QgsPointXY.x q) = true ->
  valid_binary prec emax (QgsPointXY.y q) = true ->
  invalid_wgs84 q = false
  <-> within (-90) 90 (QgsPointXY.y q) /\ within (-180) 180 (QgsPointXY.x q).
Proof.
  intros Hvx Hvy.
  rewrite <- (lat_in_range_exact _ Hvy), <- (lon_in_range_exact _ Hvx).
  rewrite invalid_wgs84_eq.
  destruct (lat_in_range (QgsPointXY.y q)) eqn:Hlat;
    [destruct (lon_in_range (QgsPointXY.x q)) eqn:Hlon|].
  - destruct (lat_in_range_finite _ Hlat) as [-> ->].
    destruct (lon_in_range_finite _ Hlon) as [-> ->]. cbn. tauto.
  - rewrite andb_false_r, orb_true_r. split; [discriminate | intros [_ H]; discriminate H].
  - rewrite orb_true_r. split; [discriminate | intros [H _]; discriminate H].
Qed.

Lemma wgs84_accepted_exactly_in_range_witness :
  invalid_wgs84 Sample.new_york = false.
Proof.
  apply (proj2 (wgs84_accepted_exactly_in_range Sample.new_york eq_refl eq_refl)).
  split; [exact sample_latitude_within | exact sample_longitude_within].
Defined.

Section CopyMore.

Variable api : PyQgis.

Lemma truthy_point_inv (v : option QgsPointXY.t) (p : QgsPointXY.t) :
  truthy_point api v = Some p -> v = Some p /\ point_bool api p = true.
Proof.
  unfold truthy_point. destruct v as [p'|]; [|discriminate].
  destruct (point_bool api p') eqn:E; [|discriminate].
  intros H. injection H as <-. split; [reflexivity | exact E].
Qed.

(** X3. Whatever the copy action writes to the clipboard is the link of a
    point the transform returned for the captured point and the validity
    check accepted, with both reference systems valid; it is the text the
    clipboard holds afterwards. *)
Theorem copied_link_comes_from_valid_point (h : Host) (w : World) (s : string) :
  In s (clipboard_writes (emitted (copy_google_maps_link_from_context api h w))) ->
  exists p q,
    clicked_point_canvas_crs w = Some p
    /\ point_bool api p = true
    /\ isValid (destinationCrs h) = true
    /\ isValid (crs_from_string h "EPSG:4326") = true
    /\ transform h (destinationCrs h) (crs_from_string h "EPSG:4326") p = inr q
    /\ invalid_wgs84 q = false
    /\ s = google_maps_link api q
    /\ clipboard (final (copy_google_maps_link_from_context api h w)) = s.
Proof.
  copy_paths api h w; cbn [emitted clipboard_writes In]; intros Hin;
    try contradiction.
  destruct Hin as [<- | []].
  apply truthy_point_inv in Hp. destruct Hp as [Hcl Hb].
  exists p, q. repeat (split; [assumption || reflexivity|]). reflexivity.
Qed.

(** X4. Every run of the copy action shows exactly one message on the
    message bar.  The success path writes nothing to the log; every other
    path writes exactly one log entry and its message is titled "Error" at
    level Critical. *)
Theorem copy_shows_one_message (h : Host) (w : World) :
  let evs := emitted (copy_google_maps_link_from_context api h w) in
  List.length (ui_messages evs) = 1
  /\ (outcomes evs = [LinkCopied] -> log_entries evs = [])
  /\ (outcomes evs <> [LinkCopied] ->
      List.length (log_entries evs) = 1
      /\ forall title msg level duration,
           In (MessageBar title msg level duration) evs ->
           title = "Error" /\ level = Qgis_Critical).
Proof.
  cbv zeta.
  copy_paths api h w; cbn [emitted ui_messages log_entries List.length].
  4: { split; [reflexivity|]. split; [reflexivity|].
       intros H. exfalso. apply H. reflexivity. }
  all: split; [reflexivity|].
  all: split; [intros H; discriminate H|].
  all: intros _; split; [reflexivity|].
  all: intros title msg level duration Hin; cbn [In] in Hin.
  all: repeat (destruct Hin as [Hin | Hin]; [try discriminate Hin|]); try contradiction.
  all: injection Hin as <- _ <- _; split; reflexivity.
Qed.

(** X5. A point is used once: in any state of the plugin's life, the copy
    action run a second time, without a right-click in between, takes the
    NoPointCaptured path, asks nothing of the host's reference systems,
    writes nothing to the clipboard and changes nothing. *)
Theorem second_copy_finds_no_point (h1 h2 : Host) (w : World) :
  lifecycle api w ->
  let first := copy_google_maps_link_from_context api h1 w in
  let second := copy_google_maps_link_from_context api h2 (final first) in
  outcomes (emitted second) = [NoPointCaptured]
  /\ clipboard_writes (emitted second) = []
  /\ crs_calls (emitted second) = []
  /\ final second = final first.
Proof.
  intros Hw first second.
  assert (Hnone : clicked_point_canvas_crs (final first) = None).
  { pose proof (lifecycle_consistent api w Hw) as Hcons.
    destruct (copy_final api h1 w) as [_ [Hn | Hsame]]; [exact Hn|].
    fold first in Hsame. rewrite Hsame.
    destruct (clicked_point_canvas_crs w) as [p|] eqn:Hcl; [|reflexivity].
    exfalso. subst first. rewrite copy_run in Hsame.
    rewrite Hcl, (truthy_point_Some api (Some p) p eq_refl
                    (cons_truthy api w Hcons p Hcl)) in Hsame.
    destruct (canvas w) as [c|]; [|discriminate Hsame].
    destruct (canvas_deleted w); [discriminate Hsame|].
    destruct (isValid (destinationCrs h1)); [|discriminate Hsame].
    cbv zeta in Hsame.
    destruct (isValid (crs_from_string h1 "EPSG:4326")); [|discriminate Hsame].
    destruct (transform h1 (destinationCrs h1) (crs_from_string h1 "EPSG:4326") p)
      as [e|q]; [discriminate Hsame|].
    destruct (invalid_wgs84 q); discriminate Hsame. }
  subst second. rewrite copy_run, Hnone. cbn [truthy_point].
  repeat (split; [reflexivity|]). reflexivity.
Qed.

End CopyMore.

Section EndToEnd.

Variable api : PyQgis.

(** X6. After a right-click on a valid point delivered to the connected
    handler, whatever point was captured before, the copy action transforms
    the point of that click and no other, and with valid reference systems
    and an accepted result puts the link of the result on the clipboard and
    forgets the point. *)
Theorem right_click_then_copy
    (w : World) (ev : QgsMapMouseEvent) (h : Host) (q : QgsPointXY.t) :
  lifecycle api w ->
  0 < connections w ->
  point_bool api (mapPoint ev) = true ->
  isValid (destinationCrs h) = true ->
  isValid (crs_from_string h "EPSG:4326") = true ->
  transform h (destinationCrs h) (crs_from_string h "EPSG:4326") (mapPoint ev)
    = inr q ->
  invalid_wgs84 q = false ->
  let clicked := final (prepare_canvas_context_menu api (Some ev) w) in
  let r := copy_google_maps_link_from_context api h clicked in
  crs_calls (emitted r) =
    [CanvasDestinationCrs; CrsConstructed "EPSG:4326";
     TransformConstructed (destinationCrs h) (crs_from_string h "EPSG:4326");
     TransformCalled (mapPoint ev)]
  /\ clipboard_writes (emitted r) = [google_maps_link api q]
  /\ clipboard (final r) = google_maps_link api q
  /\ clicked_point_canvas_crs (final r) = None.
Proof.
  intros Hw Hconn Hb Hs Ht Hx Hq clicked r.
  pose proof (lifecycle_consistent api w Hw) as Hcons.
  destruct (cons_canvas api w Hcons Hconn) as [Hc Hd].
  assert (Hclicked : clicked = set_clicked_point (Some (mapPoint ev)) w).
  { subst clicked. rewrite prepare_final. cbn [valid_map_point].
    rewrite Hb. reflexivity. }
  subst r. rewrite Hclicked, copy_run.
  cbn [set_clicked_point clicked_point_canvas_crs canvas canvas_deleted truthy_point].
  rewrite Hb, Hc, Hd, Hs. cbv zeta. rewrite Ht, Hx, Hq.
  repeat (split; [reflexivity|]). reflexivity.
Qed.

(** X7. The copy action never raises and never touches the plugin's Qt
    objects: canvas, action, connections and pending deletion are as
    before, and no connection, menu or deletion call is made. *)
Theorem copy_leaves_qt_objects (h : Host) (w : World) :
  let r := copy_google_maps_link_from_context api h w in
  completed r = Returns tt
  /\ same_qt_objects w (final r)
  /\ filter touches_qt_objects (emitted r) = [].
Proof.
  cbv zeta. split; [|split].
  - copy_paths api h w; reflexivity.
  - exact (proj1 (copy_final api h w)).
  - copy_paths api h w; reflexivity.
Qed.

End EndToEnd.

(** ** Loading and unloading *)

(** X8. [initGui] is all or nothing: with a live canvas it adds one
    connection and logs it; without a canvas, or with a canvas whose C++
    object is gone, it raises and leaves the state and the log untouched. *)
Theorem initGui_all_or_nothing (w : World) :
  let r := initGui w in
  (canvas w = Some MapCanvas /\ canvas_deleted w = false
   /\ completed r = Returns tt
   /\ final r = set_connections (S (connections w)) w
   /\ emitted r =
        [SignalConnect;
         MessageLog "Copy Google Maps Link: initGui completed and signal connected."
           "Copy Google Maps Link" Qgis_Info])
  \/ ((canvas w = None \/ canvas_deleted w = true)
      /\ (exists e, completed r = Raises e)
      /\ final r = w
      /\ emitted r = []).
Proof.
  destruct w as [cl cv act cdel conn adel asched clip].
  cbv zeta. unfold initGui. unfold_host_calls. cbn.
  destruct cv as [[]|]; [destruct cdel|]; cbn.
  - right. repeat split; eauto.
  - left. repeat split; reflexivity.
  - right. repeat split; eauto.
Qed.

(** X9. With a live canvas, [unload] after [initGui] returns normally and
    removes the connection [initGui] made: the number of connections is the
    one before [initGui]. *)
Theorem initGui_unload_round_trip (w : World) :
  canvas w = Some MapCanvas ->
  canvas_deleted w = false ->
  let connected := final (initGui w) in
  let r := unload connected in
  connections connected = S (connections w)
  /\ completed r = Returns tt
  /\ connections (final r) = connections w
  /\ In SignalDisconnect (emitted r).
Proof.
  destruct w as [cl cv act cdel conn adel asched clip].
  cbn [canvas canvas_deleted]. intros -> ->.
  cbv zeta. unfold unload, initGui. unfold_host_calls. cbn.
  destruct act as [a|]; [destruct adel|]; cbn; repeat split; auto.
Qed.

Lemma initGui_unload_round_trip_witness :
  connections (final (unload Sample.loaded)) = 0.
Proof.
  exact (proj1 (proj2 (proj2
           (initGui_unload_round_trip
              (final (classFactory (Some MapCanvas) (imported_module "")))
              eq_refl eq_refl)))).
Defined.

(** X10. [unload] calls [deleteLater] exactly when the plugin still holds
    its action and the C++ object behind it is alive. *)
Theorem unload_deleteLater_iff (w : World) :
  In ActionDeleteLater (emitted (unload w))
  <-> (exists a, context_menu_action w = Some a) /\ action_deleted w = false.
Proof.
  destruct w as [cl cv act cdel conn adel asched clip].
  unfold unload. unfold_host_calls. cbn.
  destruct cv as [[]|], cdel, conn as [|n], act as [a|], adel; cbn;
    split;
    try (intros [? | [? | [? | [? | [? | ?]]]]]; try discriminate; try contradiction);
    try (intros [[a' Ha] Hd]; discriminate);
    intros; try (split; [eexists; reflexivity | reflexivity]);
    intuition (try discriminate; eauto).
Qed.

(** X11. [unload] drops the reference to the action but resets nothing
    else the user can see: the captured point, a module global, and the
    clipboard are as before. *)
Theorem unload_keeps_point_and_clipboard (w : World) :
  let r := unload w in
  clicked_point_canvas_crs (final r) = clicked_point_canvas_crs w
  /\ clipboard (final r) = clipboard w
  /\ canvas (final r) = canvas w
  /\ context_menu_action (final r) = None.
Proof. cbv zeta. rewrite unload_final. repeat split. Qed.

Section Unloaded.

Variable api : PyQgis.

(** X12. In any state of the plugin's life [unload] returns normally and
    leaves the handler disconnected and the action reference empty. *)
Theorem unload_disconnects (w : World) :
  lifecycle api w ->
  let r := unload w in
  completed r = Returns tt
  /\ connections (final r) = 0
  /\ context_menu_action (final r) = None.
Proof.
  intros Hw r. pose proof (lifecycle_consistent api w Hw) as [H1 H2 H3 H4 H5].
  split; [exact (proj1 (unload_returns w))|].
  subst r. rewrite unload_final. cbn. split; [|reflexivity].
  destruct (connections w) as [|[|n]] eqn:En.
  - destruct (canvas w); [destruct (canvas_deleted w)|]; reflexivity.
  - destruct H3 as [Hc Hd]; [lia|]. rewrite Hc, Hd. reflexivity.
  - lia.
Qed.

End Unloaded.

(** ** Sessions *)

Lemma clipboard_writes_app (a b : list Event) :
  clipboard_writes (a ++ b) = clipboard_writes a ++ clipboard_writes b.
Proof.
  induction a as [|ev a IH]; [reflexivity|].
  destruct ev; cbn; rewrite IH; reflexivity.
Qed.

Lemma ui_messages_app (a b : list Event) :
  ui_messages (a ++ b) = ui_messages a ++ ui_messages b.
Proof.
  induction a as [|ev a IH]; [reflexivity|].
  destruct ev; cbn; rewrite IH; reflexivity.
Qed.

Lemma delete_later_calls_app (a b : list Event) :
  delete_later_calls (a ++ b) = delete_later_calls a + delete_later_calls b.
Proof.
  induction a as [|ev a IH]; [reflexivity|].
  destruct ev; cbn; rewrite IH; reflexivity.
Qed.


Ltac logged :=
  let Hin := fresh "Hin" in
  intros ? ? ? Hin; cbn [In] in Hin;
  repeat (destruct Hin as [Hin | Hin];
          [try discriminate Hin; injection Hin as _ <- _; reflexivity|]);
  contradiction.


Lemma run_calls_cons (api : PyQgis) (c : HostCall) (cs : list HostCall) (w : World) :
  run_calls api (c :: cs) w =
  (fst (run_calls api cs (final (run_call api c w))),
   emitted (run_call api c w) ++ snd (run_calls api cs (final (run_call api c w)))).
Proof.
  cbn [run_calls]. destruct (run_call api c w) as [c0 w1 ev1]. cbn [final emitted].
  destruct (run_calls api cs w1) as [w2 ev2]. reflexivity.
Qed.

Section Sessions.

Variable api : PyQgis.

Lemma initGui_figures (w : World) :
  clipboard_writes (emitted (initGui w)) = []
  /\ ui_messages (emitted (initGui w)) = []
  /\ delete_later_calls (emitted (initGui w)) = 0
  /\ logged_under name (emitted (initGui w))
  /\ clicked_point_canvas_crs (final (initGui w)) = clicked_point_canvas_crs w
  /\ context_menu_action (final (initGui w)) = context_menu_action w.
Proof.
  destruct w as [cl cv act cdel conn adel asched clip].
  unfold initGui. unfold_host_calls. cbn.
  destruct cv as [[]|]; [destruct cdel|]; cbn; repeat split; logged.
Qed.

Lemma prepare_figures (event : option QgsMapMouseEvent) (w : World) :
  let r := prepare_canvas_context_menu api event w in
  clipboard_writes (emitted r) = []
  /\ ui_messages (emitted r) = []
  /\ delete_later_calls (emitted r) = 0
  /\ logged_under name (emitted r)
  /\ captured api (final r) <= valid_right_clicks api [RightClick event] + captured api w
  /\ context_menu_action (final r) = context_menu_action w.
Proof.
  cbv zeta. rewrite prepare_run. cbn [valid_right_clicks].
  destruct (valid_map_point api event) as [p|];
    [destruct (context_menu_action w) as [a|] eqn:Ha;
     [destruct (action_deleted w)|]|];
    cbn [emitted final clipboard_writes ui_messages delete_later_calls
         set_clicked_point context_menu_action];
    repeat split; try logged; try (exact Ha); unfold captured; cbn;
    try (destruct (point_bool api p)); try lia;
    destruct (truthy_point api (clicked_point_canvas_crs w)); lia.
Qed.

Lemma copy_figures (h : Host) (w : World) :
  let r := copy_google_maps_link_from_context api h w in
  List.length (clipboard_writes (emitted r)) + captured api (final r) <= captured api w
  /\ List.length (ui_messages (emitted r)) = 1
  /\ delete_later_calls (emitted r) = 0
  /\ logged_under name (emitted r)
  /\ context_menu_action (final r) = context_menu_action w.
Proof.
  cbv zeta. unfold captured.
  copy_paths api h w;
    cbn [emitted final clipboard_writes ui_messages delete_later_calls List.length
         set_clicked_point set_clipboard clicked_point_canvas_crs
         context_menu_action truthy_point Nat.add];
    rewrite ?Hp; repeat split; try logged; lia.
Qed.

Lemma unload_figures (w : World) :
  clipboard_writes (emitted (unload w)) = []
  /\ ui_messages (emitted (unload w)) = []
  /\ delete_later_calls (emitted (unload w)) + held_actions (final (unload w))
     <= held_actions w
  /\ logged_under name (emitted (unload w))
  /\ clicked_point_canvas_crs (final (unload w)) = clicked_point_canvas_crs w.
Proof.
  destruct w as [cl cv act cdel conn adel asched clip].
  unfold unload, held_actions. unfold_host_calls. cbn.
  destruct cv as [[]|], cdel, conn as [|n], act as [a|], adel; cbn;
    repeat split; try logged; lia.
Qed.

Lemma call_writes (c : HostCall) (w : World) :
  List.length (clipboard_writes (emitted (run_call api c w)))
  + captured api (final (run_call api c w))
  <= valid_right_clicks api [c] + captured api w.
Proof.
  destruct c as [| event | h |]; cbn [run_call].
  - destruct (initGui_figures w) as (Hw & _ & _ & _ & Hcl & _).
    unfold captured. rewrite Hw, Hcl. cbn. lia.
  - destruct (prepare_figures event w) as (Hw & _ & _ & _ & Hcap & _).
    rewrite Hw. cbn [List.length Nat.add]. exact Hcap.
  - destruct (copy_figures h w) as (Hcap & _). cbn [valid_right_clicks]. lia.
  - destruct (unload_figures w) as (Hw & _ & _ & _ & Hcl).
    unfold captured. rewrite Hw, Hcl. cbn. lia.
Qed.

Lemma call_deletions (c : HostCall) (w : World) :
  delete_later_calls (emitted (run_call api c w))
  + held_actions (final (run_call api c w))
  <= held_actions w.
Proof.
  destruct c as [| event | h |]; cbn [run_call].
  - destruct (initGui_figures w) as (_ & _ & Hd & _ & _ & Ha).
    unfold held_actions. rewrite Hd, Ha. lia.
  - destruct (prepare_figures event w) as (_ & _ & Hd & _ & _ & Ha).
    unfold held_actions. rewrite Hd, Ha. lia.
  - destruct (copy_figures h w) as (_ & _ & Hd & _ & Ha).
    unfold held_actions. rewrite Hd, Ha. lia.
  - exact (proj1 (proj2 (proj2 (unload_figures w)))).
Qed.

Lemma call_messages (c : HostCall) (w : World) :
  List.length (ui_messages (emitted (run_call api c w))) = menu_selections [c].
Proof.
  destruct c as [| event | h |]; cbn [run_call menu_selections].
  - destruct (initGui_figures w) as (_ & Hu & _). rewrite Hu. reflexivity.
  - destruct (prepare_figures event w) as (_ & Hu & _). rewrite Hu. reflexivity.
  - exact (proj1 (proj2 (copy_figures h w))).
  - destruct (unload_figures w) as (_ & Hu & _). rewrite Hu. reflexivity.
Qed.


Lemma valid_right_clicks_cons (c : HostCall) (cs : list HostCall) :
  valid_right_clicks api (c :: cs)
  = valid_right_clicks api [c] + valid_right_clicks api cs.
Proof.
  destruct c as [| event | h |]; cbn [valid_right_clicks]; try reflexivity.
  destruct (valid_map_point api event); reflexivity.
Qed.

Lemma menu_selections_cons (c : HostCall) (cs : list HostCall) :
  menu_selections (c :: cs) = menu_selections [c] + menu_selections cs.
Proof. destruct c; reflexivity. Qed.

Lemma session_writes (cs : list HostCall) (w : World) :
  List.length (clipboard_writes (snd (run_calls api cs w)))
  + captured api (fst (run_calls api cs w))
  <= valid_right_clicks api cs + captured api w.
Proof.
  revert w. induction cs as [|c cs IH]; intros w.
  - cbn. lia.
  - rewrite run_calls_cons, valid_right_clicks_cons. cbn [fst snd].
    rewrite clipboard_writes_app, length_app.
    specialize (IH (final (run_call api c w))).
    pose proof (call_writes c w). lia.
Qed.

Lemma session_deletions (cs : list HostCall) (w : World) :
  delete_later_calls (snd (run_calls api cs w))
  + held_actions (fst (run_calls api cs w))
  <= held_actions w.
Proof.
  revert w. induction cs as [|c cs IH]; intros w.
  - cbn. lia.
  - rewrite run_calls_cons. cbn [fst snd]. rewrite delete_later_calls_app.
    specialize (IH (final (run_call api c w))).
    pose proof (call_deletions c w). lia.
Qed.

(** X13. In any session the clipboard is written at most once per
    right-click on a valid point (plus once for a point captured before the
    session): a link cannot be copied twice from one right-click. *)
Theorem one_copy_per_right_click (cs : list HostCall) (w : World) :
  List.length (clipboard_writes (snd (run_calls api cs w)))
  <= valid_right_clicks api cs + captured api w.
Proof. pose proof (session_writes cs w). lia. Qed.

(** X14. In any session [deleteLater] is called at most once, and never
    when the plugin no longer holds its action. *)
Theorem deleteLater_at_most_once (cs : list HostCall) (w : World) :
  delete_later_calls (snd (run_calls api cs w)) <= 1
  /\ (context_menu_action w = None ->
      delete_later_calls (snd (run_calls api cs w)) = 0).
Proof.
  pose proof (session_deletions cs w) as H. unfold held_actions in H at 2.
  destruct (context_menu_action w); split; try lia; intros; try discriminate; lia.
Qed.

(** X15. In any session the user sees exactly one message per selection
    of the menu entry: [initGui], the menu handler and [unload] never use
    the message bar. *)
Theorem one_message_per_menu_selection (cs : list HostCall) (w : World) :
  List.length (ui_messages (snd (run_calls api cs w))) = menu_selections cs.
Proof.
  revert w. induction cs as [|c cs IH]; intros w.
  - reflexivity.
  - rewrite run_calls_cons, menu_selections_cons. cbn [fst snd].
    rewrite ui_messages_app, length_app, IH, call_messages. reflexivity.
Qed.


End Sessions.

(** X17. In every state of the plugin's life the handler is connected at
    most once, and while it is connected the plugin holds the live action
    "Copy Google Maps Link Here" on a live canvas. *)
Theorem connected_handler_has_live_action (api : PyQgis) (w : World) :
  lifecycle api w ->
  connections w <= 1
  /\ (0 < connections w ->
      context_menu_action w = Some (mkAction "Copy Google Maps Link Here")
      /\ action_deleted w = false
      /\ canvas w = Some MapCanvas
      /\ canvas_deleted w = false).
Proof.
  intros Hw. destruct (lifecycle_consistent api w Hw) as [H1 H2 H3 _ _].
  split; [exact H1|]. intros Hc.
  destruct (H2 Hc) as [Ha Hd]. destruct (H3 Hc) as [Hcv Hcd]. auto.
Qed.

(** ** The sample session, further *)

Lemma copied_link_comes_from_valid_point_witness :
  exists p q,
    clicked_point_canvas_crs Sample.right_clicked = Some p
    /\ point_bool Sample.api p = true
    /\ isValid (destinationCrs Sample.host) = true
    /\ isValid (crs_from_string Sample.host "EPSG:4326") = true
    /\ transform Sample.host (destinationCrs Sample.host)
         (crs_from_string Sample.host "EPSG:4326") p = inr q
    /\ invalid_wgs84 q = false
    /\ "https://www.google.com/maps?q=40.7128,-74.006"%string
       = google_maps_link Sample.api q
    /\ clipboard
         (final (copy_google_maps_link_from_context Sample.api Sample.host
                   Sample.right_clicked))
       = "https://www.google.com/maps?q=40.7128,-74.006"%string.
Proof.
  exact (copied_link_comes_from_valid_point Sample.api Sample.host
           Sample.right_clicked
           "https://www.google.com/maps?q=40.7128,-74.006"
           (or_introl eq_refl)).
Defined.

Lemma second_copy_finds_no_point_witness :
  outcomes
    (emitted
       (copy_google_maps_link_from_context Sample.api Sample.host
          (final (copy_google_maps_link_from_context Sample.api Sample.host
                    Sample.right_clicked))))
  = [NoPointCaptured].
Proof.
  exact (proj1 (second_copy_finds_no_point Sample.api Sample.host Sample.host
                  Sample.right_clicked sample_right_clicked_life)).
Defined.

Lemma right_click_then_copy_witness :
  clipboard
    (final (copy_google_maps_link_from_context Sample.api Sample.host
              Sample.right_clicked))
  = "https://www.google.com/maps?q=40.7128,-74.006"%string.
Proof.
  exact (proj1 (proj2 (proj2
           (right_click_then_copy Sample.api Sample.loaded
              (mkMouseEvent Sample.clicked) Sample.host Sample.new_york
              sample_loaded_life sample_loaded_connected
              eq_refl eq_refl eq_refl eq_refl eq_refl)))).
Defined.

Lemma unload_disconnects_witness :
  connections (final (unload Sample.right_clicked)) = 0.
Proof.
  exact (proj1 (proj2
           (unload_disconnects Sample.api Sample.right_clicked
              sample_right_clicked_life))).
Defined.

Lemma connected_handler_has_live_action_witness :
  connections Sample.right_clicked <= 1.
Proof.
  exact (proj1 (connected_handler_has_live_action Sample.api
                  Sample.right_clicked sample_right_clicked_life)).
Defined.
